(** * VP_Wall_Builder: the geometry engine of the LED wall generator

    A shallow embedding of [src/VP_Wall_Builder.py] (class
    [LEDSurfaceGenerator]): parameter acquisition, the curve solution and
    the vertex / normal / UV grid of [calculate_geometry], the quad faces of
    [generate_faces] and the OBJ text written by [save_obj]; then the data
    window and the debug printout, the tiles of the test image, and the two
    handlers [generate_obj] and [update_preview] as traces of events.
    Qt, matplotlib and Pillow stay outside: what they answer (the file
    dialog, the font metrics, the plot) is a parameter of the model.

    Number model.  Python [int] is [Z].  A Python [float] that the code
    computes with is a real number ([R] of the Standard Library): the
    formulas are evaluated in exact arithmetic, so rounding, underflow,
    overflow and signed zeros of IEEE doubles are idealised away, and with
    them the exceptions that only doubles meet (OverflowError when a huge
    [int] meets a [float], ValueError of [math.sin] at infinity).
    Statements that would not survive on doubles carry the range of inputs
    they are meant for as hypotheses ([modest], [in_double_range]), and
    [Binary64] evaluates the curve on IEEE doubles where the difference
    matters.  The one
    special value the source builds on purpose, [float('inf')], is kept:
    [pyfloat] adds the infinities and NaN to the reals, and the values
    stored in the mesh are [pyfloat]s.  Integers are unbounded; the
    interpreter's resource limits (memory, the digit limit of conversions
    between [int] and [str]) are not modelled.  Exceptions are explicit: a
    computation returns [Ok v] or [Raise e]. *)

From Stdlib Require Import Reals Lra Lia ZArith Bool.
From Stdlib Require Import String Ascii DecimalString DecimalPos List.
From Stdlib Require Floats.
Import ListNotations.

(** ** Exceptions *)

Inductive exn : Set :=
| ZeroDivisionError
| ValueError
| OverflowError.

Inductive result (A : Type) : Type :=
| Ok (a : A)
| Raise (e : exn).

Arguments Ok {A} a.
Arguments Raise {A} e.

Definition bind {A B : Type} (m : result A) (k : A -> result B) : result B :=
  match m with
  | Ok a => k a
  | Raise e => Raise e
  end.

Notation "x <- m ;; k" := (bind m (fun x => k))
  (at level 61, m at next level, right associativity).
Notation "' p <- m ;; k" := (bind m (fun x => let p := x in k))
  (at level 61, p pattern, m at next level, right associativity).

(** A [for] loop whose body may raise: the accumulator is threaded through
    the iterations and the first exception ends the loop. *)
Fixpoint for_each {A S : Type} (body : S -> A -> result S) (l : list A) (s : S)
  : result S :=
  match l with
  | [] => Ok s
  | a :: l' => s' <- body s a ;; for_each body l' s'
  end.

(** Python's [range(lo, hi)] on integers. *)
Definition range (lo hi : Z) : list Z :=
  map (fun i => (lo + Z.of_nat i)%Z) (seq 0 (Z.to_nat (hi - lo))).

(** ** Floats *)

Inductive pyfloat : Type :=
| Fin (r : R)
| PosInf
| NegInf
| NaN.

Open Scope R_scope.

(** [a * s] for a float [a] and a finite [s], as IEEE 754 defines it on the
    infinities. *)
Definition fmul (a : pyfloat) (s : R) : pyfloat :=
  match a with
  | Fin r => Fin (r * s)
  | PosInf => if Rlt_dec 0 s then PosInf else if Rlt_dec s 0 then NegInf else NaN
  | NegInf => if Rlt_dec 0 s then NegInf else if Rlt_dec s 0 then PosInf else NaN
  | NaN => NaN
  end.

(** [a / b]: Python raises [ZeroDivisionError] on a zero divisor, for
    [int / int] as for [float / float]. *)
Definition truediv (a b : R) : result R :=
  if Req_dec_T b 0 then Raise ZeroDivisionError else Ok (a / b).

(** [math.radians]. *)
Definition radians (d : R) : R := d * (PI / 180).

(** [Constants.SCALE_FACTOR = 0.001]: millimeters to meters. *)
Definition SCALE_FACTOR : R := 1 / 1000.

(** ** The mesh *)

Definition vec3 : Type := pyfloat * pyfloat * pyfloat.
Definition vec2 : Type := pyfloat * pyfloat.
Definition face : Type := Z * Z * Z * Z.

Definition vert_x (v : vec3) : pyfloat := fst (fst v).
Definition vert_y (v : vec3) : pyfloat := snd (fst v).
Definition vert_z (v : vec3) : pyfloat := snd v.

(** The four indices of a face, in corner order. *)
Definition face_indices (f : face) : list Z :=
  let '(v1, v2, v3, v4) := f in [v1; v2; v3; v4].

(** The flat index of grid cell [(x, y)] in the column-major vertex grid. *)
Definition index (cabinets_high x y : Z) : Z :=
  (x * (cabinets_high + 1) + y)%Z.

Record vertex_data : Type := mk_vertex_data {
  vertices : list vec3;
  normals : list vec3;
  uvs : list vec2
}.

(** [generate_vertex_data], lines 218-238.  The outer loop picks the column
    basis, the inner loop appends one vertex, one normal and one UV pair. *)
Definition generate_vertex_data (cabinets_wide cabinets_high : Z)
    (cabinet_width_m cabinet_height_m : R) (radius : pyfloat)
    (start_angle central_angle tilt_angle : R) : result vertex_data :=
  for_each
    (fun acc x =>
       '(vx, vz, normal_x, normal_z) <-
         (if Req_dec_T tilt_angle 0 then
            Ok (Fin (IZR x * cabinet_width_m), Fin 0, 0, -1)
          else
            q <- truediv (IZR x) (IZR cabinets_wide) ;;
            let angle := start_angle + q * central_angle in
            Ok (fmul radius (sin angle), fmul radius (1 - cos angle),
                sin angle, - cos angle)) ;;
       for_each
         (fun acc y =>
            let vy := IZR y * cabinet_height_m in
            u <- truediv (IZR x) (IZR cabinets_wide) ;;
            v <- truediv (IZR y) (IZR cabinets_high) ;;
            Ok {| vertices := vertices acc ++ [(vx, Fin vy, vz)];
                  normals := normals acc ++ [(Fin normal_x, Fin 0, Fin normal_z)];
                  uvs := uvs acc ++ [(Fin u, Fin v)] |})
         (range 0 (cabinets_high + 1)) acc)
    (range 0 (cabinets_wide + 1))
    {| vertices := []; normals := []; uvs := [] |}.

(** [generate_faces], lines 240-249. *)
Definition generate_faces (cabinets_wide cabinets_high : Z) : list face :=
  fold_left
    (fun faces x =>
       fold_left
         (fun faces y =>
            let v1 := ((x - 1) * (cabinets_high + 1) + y)%Z in
            let v2 := (x * (cabinets_high + 1) + y)%Z in
            let v3 := (x * (cabinets_high + 1) + y + 1)%Z in
            let v4 := ((x - 1) * (cabinets_high + 1) + y + 1)%Z in
            faces ++ [(v1, v2, v3, v4)])
         (range 0 cabinets_high) faces)
    (range 1 (cabinets_wide + 1))
    [].

(** The local variables of [calculate_geometry] after its [if]/[else]
    (lines 196-207), in exact arithmetic. *)
Record curve : Type := mk_curve {
  radius : pyfloat;
  start_angle : R;
  central_angle : R;
  arc_length : R;
  chord_length : R
}.

Definition solve_curve (cabinets_wide : Z) (tilt_angle cabinet_width_m : R)
  : result curve :=
  let arc_length := IZR cabinets_wide * cabinet_width_m in
  if Req_dec_T tilt_angle 0 then
    Ok {| radius := PosInf; start_angle := 0; central_angle := 0;
          arc_length := arc_length; chord_length := arc_length |}
  else
    let central_angle := radians (tilt_angle * IZR (cabinets_wide - 1)) in
    radius <- truediv arc_length central_angle ;;
    let start_angle := - central_angle / 2 in
    let chord_length := 2 * radius * sin (central_angle / 2) in
    Ok {| radius := Fin radius; start_angle := start_angle;
          central_angle := central_angle;
          arc_length := arc_length; chord_length := chord_length |}.

(** What [calculate_geometry] returns, [(vertices, faces, normals, uvs)],
    together with the curve it passed to [print_debug_info]. *)
Record geometry : Type := mk_geometry {
  g_curve : curve;
  g_vertices : list vec3;
  g_faces : list face;
  g_normals : list vec3;
  g_uvs : list vec2
}.

(** [calculate_geometry], lines 191-216.  The tile sizes are accepted and
    not used. *)
Definition calculate_geometry (cabinets_wide cabinets_high : Z)
    (tilt_angle cabinet_width cabinet_height : R) (tile_width tile_height : Z)
  : result geometry :=
  let cabinet_width_m := cabinet_width * SCALE_FACTOR in
  let cabinet_height_m := cabinet_height * SCALE_FACTOR in
  c <- solve_curve cabinets_wide tilt_angle cabinet_width_m ;;
  d <- generate_vertex_data cabinets_wide cabinets_high cabinet_width_m
         cabinet_height_m (radius c) (start_angle c) (central_angle c)
         tilt_angle ;;
  let faces := generate_faces cabinets_wide cabinets_high in
  Ok {| g_curve := c; g_vertices := vertices d; g_faces := faces;
        g_normals := normals d; g_uvs := uvs d |}.

(** ** Parameter acquisition *)

Close Scope R_scope.
Open Scope Z_scope.

(** The text of a form field is a list of characters; the model covers
    ASCII text.  The blanks that [int] skips there are the space and the
    control characters 9 to 13. *)
Definition is_space (c : ascii) : bool :=
  let n := Z.of_nat (nat_of_ascii c) in
  ((9 <=? n) && (n <=? 13)) || (n =? 32).

Definition is_underscore (c : ascii) : bool := Ascii.eqb c "_"%char.

Definition digit_value (c : ascii) : option Z :=
  let n := Z.of_nat (nat_of_ascii c) in
  if (48 <=? n) && (n <=? 57) then Some (n - 48) else None.

Fixpoint lstrip (s : list ascii) : list ascii :=
  match s with
  | c :: s' => if is_space c then lstrip s' else s
  | [] => []
  end.

Definition strip (s : list ascii) : list ascii :=
  rev (lstrip (rev (lstrip s))).

(** The digits of an integer literal: decimal digits, single underscores
    allowed between two digits.  [prev] tells that the last character read
    was an underscore. *)
Fixpoint scan_digits (s : list ascii) (acc : Z) (prev : bool) : option Z :=
  match s with
  | [] => if prev then None else Some acc
  | c :: s' =>
      if is_underscore c then
        if prev then None else scan_digits s' acc true
      else
        match digit_value c with
        | Some d => scan_digits s' (10 * acc + d) false
        | None => None
        end
  end.

Definition unsigned_literal (s : list ascii) : option Z :=
  match s with
  | [] => None
  | c :: _ => if is_underscore c then None else scan_digits s 0 false
  end.

Definition signed_literal (s : list ascii) : option Z :=
  match s with
  | c :: s' =>
      if Ascii.eqb c "-"%char then option_map Z.opp (unsigned_literal s')
      else if Ascii.eqb c "+"%char then unsigned_literal s'
      else unsigned_literal s
  | [] => None
  end.

(** Python's [int(text)]: surrounding whitespace is dropped, then an
    optional sign and a decimal literal must fill the text; anything else
    raises [ValueError]. *)
Definition py_int (text : string) : result Z :=
  match signed_literal (strip (list_ascii_of_string text)) with
  | Some n => Ok n
  | None => Raise ValueError
  end.

(** [self.inputs]: the text of the form field under each label. *)
Definition inputs : Type := string -> string.

(** [Constants.INPUT_FIELDS]: label and default text of each field (the
    tooltips are left out). *)
Definition INPUT_FIELDS : list (string * string) :=
  [("Cabinets Wide", "36"); ("Cabinets High", "8"); ("Tilt Angle", "5");
   ("Cabinet Width", "500"); ("Cabinet Height", "500");
   ("Tile Width", "64"); ("Tile Height", "64")]%string.

(** The form as [create_input_fields] leaves it. *)
Definition default_inputs : inputs :=
  fun label =>
    match find (fun field => String.eqb (fst field) label) INPUT_FIELDS with
    | Some field => snd field
    | None => EmptyString
    end.

(** The user types [text] into the field [label]. *)
Definition set_text (self_inputs : inputs) (label text : string) : inputs :=
  fun l => if String.eqb l label then text else self_inputs l.

Record params : Type := mk_params {
  p_cabinets_wide : Z;
  p_cabinets_high : Z;
  p_tilt_angle : R;
  p_cabinet_width : Z;
  p_cabinet_height : Z;
  p_tile_width : Z;
  p_tile_height : Z
}.

(** [get_input_params], lines 180-189.  The dict entries are evaluated in
    source order, so the first field that does not parse raises.
    [py_float] stands for Python's [float(text)], which the claims here do
    not look into. *)
Definition get_input_params (py_float : string -> result R) (self_inputs : inputs)
  : result params :=
  cabinets_wide <- py_int (self_inputs "Cabinets Wide"%string) ;;
  cabinets_high <- py_int (self_inputs "Cabinets High"%string) ;;
  tilt_angle <- py_float (self_inputs "Tilt Angle"%string) ;;
  cabinet_width <- py_int (self_inputs "Cabinet Width"%string) ;;
  cabinet_height <- py_int (self_inputs "Cabinet Height"%string) ;;
  tile_width <- py_int (self_inputs "Tile Width"%string) ;;
  tile_height <- py_int (self_inputs "Tile Height"%string) ;;
  Ok {| p_cabinets_wide := cabinets_wide; p_cabinets_high := cabinets_high;
        p_tilt_angle := tilt_angle; p_cabinet_width := cabinet_width;
        p_cabinet_height := cabinet_height; p_tile_width := tile_width;
        p_tile_height := tile_height |}.

(** [calculate_geometry] applied to the parameter dict, as [update_preview]
    and [generate_obj] call it. *)
Definition calculate_geometry_of (p : params) : result geometry :=
  calculate_geometry (p_cabinets_wide p) (p_cabinets_high p) (p_tilt_angle p)
    (IZR (p_cabinet_width p)) (IZR (p_cabinet_height p))
    (p_tile_width p) (p_tile_height p).

(** ** The OBJ writer *)

Open Scope string_scope.

Definition newline : string := String (ascii_of_nat 10) EmptyString.

(** An [int] inside an f-string: its decimal text. *)
Definition str_int (n : Z) : string := NilZero.string_of_int (Z.to_int n).

(** [f.write(s)] on the open file: the text is appended. *)
Definition write (f : string) (s : string) : string := f ++ s.

Section ObjWriter.

(** [format(v, '.6f')], Python's fixed-point formatting with 6 decimal
    digits. *)
Variable fmt6 : pyfloat -> string.

(** [save_obj], lines 303-314: the text the file holds when the [with]
    block ends. *)
Definition save_obj (vs : list vec3) (fs : list face) (ns : list vec3)
    (ts : list vec2) : string :=
  let f := write EmptyString ("# OBJ file" ++ newline) in
  let f :=
    fold_left
      (fun f (v : vec3) =>
         let '(v0, v1, v2) := v in
         write f ("v " ++ fmt6 v0 ++ " " ++ fmt6 v1 ++ " " ++ fmt6 v2
                  ++ newline))
      vs f in
  let f :=
    fold_left
      (fun f (vt : vec2) =>
         let '(vt0, vt1) := vt in
         write f ("vt " ++ fmt6 vt0 ++ " " ++ fmt6 vt1 ++ newline))
      ts f in
  let f :=
    fold_left
      (fun f (vn : vec3) =>
         let '(vn0, vn1, vn2) := vn in
         write f ("vn " ++ fmt6 vn0 ++ " " ++ fmt6 vn1 ++ " " ++ fmt6 vn2
                  ++ newline))
      ns f in
  fold_left
    (fun f (fc : face) =>
       let '(f0, f1, f2, f3) := fc in
       write f
         ("f " ++ str_int (f0 + 1) ++ "/" ++ str_int (f0 + 1) ++ "/"
               ++ str_int (f0 + 1) ++ " "
               ++ str_int (f1 + 1) ++ "/" ++ str_int (f1 + 1) ++ "/"
               ++ str_int (f1 + 1) ++ " "
               ++ str_int (f2 + 1) ++ "/" ++ str_int (f2 + 1) ++ "/"
               ++ str_int (f2 + 1) ++ " "
               ++ str_int (f3 + 1) ++ "/" ++ str_int (f3 + 1) ++ "/"
               ++ str_int (f3 + 1) ++ newline))
    fs f.

End ObjWriter.

Close Scope string_scope.

(** ** Vocabulary of the specification *)

Open Scope R_scope.

(** The column-major enumeration of a [(cabinets_wide+1) x (cabinets_high+1)]
    grid: all rows of column 0, then column 1, and so on. *)
Definition grid {A : Type} (cell : Z -> Z -> A) (cabinets_wide cabinets_high : Z)
  : list A :=
  flat_map (fun x => map (cell x) (range 0 (cabinets_high + 1)))
           (range 0 (cabinets_wide + 1)).

(** The quad whose top-right corner column is [x] and bottom row is [y]. *)
Definition quad (cabinets_high x y : Z) : face :=
  (index cabinets_high (x - 1) y, index cabinets_high x y,
   index cabinets_high x (y + 1), index cabinets_high (x - 1) (y + 1)).

Definition column_angle (start central : R) (cabinets_wide x : Z) : R :=
  start + (IZR x / IZR cabinets_wide) * central.

Definition curved_vertex (rad : pyfloat) (start central : R)
    (cabinets_wide : Z) (cabinet_height_m : R) (x y : Z) : vec3 :=
  let angle := column_angle start central cabinets_wide x in
  (fmul rad (sin angle), Fin (IZR y * cabinet_height_m),
   fmul rad (1 - cos angle)).

Definition curved_normal (start central : R) (cabinets_wide : Z) (x y : Z)
  : vec3 :=
  let angle := column_angle start central cabinets_wide x in
  (Fin (sin angle), Fin 0, Fin (- cos angle)).

Definition flat_vertex (cabinet_width_m cabinet_height_m : R) (x y : Z) : vec3 :=
  (Fin (IZR x * cabinet_width_m), Fin (IZR y * cabinet_height_m), Fin 0).

Definition flat_normal (x y : Z) : vec3 := (Fin 0, Fin 0, Fin (-1)).

Definition cell_uv (cabinets_wide cabinets_high : Z) (x y : Z) : vec2 :=
  (Fin (IZR x / IZR cabinets_wide), Fin (IZR y / IZR cabinets_high)).

(** The element stored for grid cell [(x, y)]. *)
Definition at_cell {A : Type} (l : list A) (cabinets_high x y : Z) : option A :=
  nth_error l (Z.to_nat (index cabinets_high x y)).

(** Appending the three arrays of one batch of cells. *)
Definition push_cells (acc : vertex_data) (vs ns : list vec3) (ts : list vec2)
  : vertex_data :=
  {| vertices := vertices acc ++ vs;
     normals := normals acc ++ ns;
     uvs := uvs acc ++ ts |}.

(** The lines of the OBJ text. *)
Section ObjLines.

Variable fmt6 : pyfloat -> string.

Open Scope string_scope.

Definition v_line (v : vec3) : string :=
  "v " ++ fmt6 (vert_x v) ++ " " ++ fmt6 (vert_y v) ++ " " ++ fmt6 (vert_z v)
  ++ newline.

Definition vt_line (vt : vec2) : string :=
  "vt " ++ fmt6 (fst vt) ++ " " ++ fmt6 (snd vt) ++ newline.

Definition vn_line (vn : vec3) : string :=
  "vn " ++ fmt6 (vert_x vn) ++ " " ++ fmt6 (vert_y vn) ++ " "
  ++ fmt6 (vert_z vn) ++ newline.

(** One corner of a face line: the 1-based index, three times. *)
Definition corner (i : Z) : string :=
  str_int (i + 1) ++ "/" ++ str_int (i + 1) ++ "/" ++ str_int (i + 1).

Definition f_line (fc : face) : string :=
  match face_indices fc with
  | [a; b; c; d] =>
      "f " ++ corner a ++ " " ++ corner b ++ " " ++ corner c ++ " "
      ++ corner d ++ newline
  | _ => EmptyString
  end.

Definition lines_of {A : Type} (line : A -> string) (l : list A) : string :=
  String.concat EmptyString (map line l).

Close Scope string_scope.

End ObjLines.

Close Scope R_scope.


Definition foreign_char (c : ascii) : Prop :=
  is_space c = false /\ is_underscore c = false /\ digit_value c = None
  /\ Ascii.eqb c "-"%char = false /\ Ascii.eqb c "+"%char = false.

(** ** The debug printout and the data window *)

Open Scope R_scope.

(** [math.degrees]. *)
Definition degrees (r : R) : R := r * (180 / PI).

Close Scope R_scope.

(** The local variables of [update_data_window] before the text is built
    (lines 258-279). *)
Record summary : Type := mk_summary {
  total_width_mm : Z;
  total_height_mm : Z;
  total_pixels_width : Z;
  total_pixels_height : Z;
  total_cabinets : Z;
  total_pixels : Z;
  arc_length_m : R;
  chord_length_m : R
}.

Definition data_summary (p : params) : result summary :=
  let total_width_mm := p_cabinets_wide p * p_cabinet_width p in
  let total_height_mm := p_cabinets_high p * p_cabinet_height p in
  let total_pixels_width := p_cabinets_wide p * p_tile_width p in
  let total_pixels_height := p_cabinets_high p * p_tile_height p in
  let total_cabinets := p_cabinets_wide p * p_cabinets_high p in
  let total_pixels := total_pixels_width * total_pixels_height in
  let arc_length_m := (IZR total_width_mm / 1000)%R in
  chord_length_m <-
    (if Req_dec_T (p_tilt_angle p) 0 then Ok arc_length_m
     else
       let central_angle :=
         radians (p_tilt_angle p * IZR (p_cabinets_wide p - 1)) in
       radius <- truediv arc_length_m central_angle ;;
       Ok (2 * radius * sin (central_angle / 2))%R) ;;
  Ok {| total_width_mm := total_width_mm;
        total_height_mm := total_height_mm;
        total_pixels_width := total_pixels_width;
        total_pixels_height := total_pixels_height;
        total_cabinets := total_cabinets;
        total_pixels := total_pixels;
        arc_length_m := arc_length_m;
        chord_length_m := chord_length_m |}.

Section Reports.

(** [format(v, '.2f')] and [format(n, ',')]. *)
Variable fmt2 : pyfloat -> string.
Variable fmt_commas : Z -> string.

Open Scope string_scope.

(** [print_debug_info], lines 251-255: the lines sent to standard
    output. *)
Definition print_debug_info (rad : pyfloat) (arc chord central : R)
  : list string :=
  ["Radius: " ++ fmt2 rad ++ " m";
   "Arc Length (Total Cabinet Width): " ++ fmt2 (Fin arc) ++ " m";
   "Chord Length (Straight-line Distance): " ++ fmt2 (Fin chord) ++ " m";
   "Central Angle: " ++ fmt2 (Fin (degrees central)) ++ " degrees"].

(** [update_data_window], lines 257-290: the text set on the data window.
    The height and the aspect ratio are computed while the text is
    built. *)
Definition update_data_window (p : params) : result string :=
  s <- data_summary p ;;
  let height := (IZR (total_height_mm s) / 1000)%R in
  aspect <- truediv (IZR (total_width_mm s)) (IZR (total_height_mm s)) ;;
  Ok ("Wall Dimensions:" ++ newline
      ++ "  Arc Length: " ++ fmt2 (Fin (arc_length_m s)) ++ "m" ++ newline
      ++ "  Chord Length: " ++ fmt2 (Fin (chord_length_m s)) ++ "m" ++ newline
      ++ "  Height: " ++ fmt2 (Fin height) ++ "m" ++ newline
      ++ "Total Resolution: " ++ str_int (total_pixels_width s) ++ "px x "
      ++ str_int (total_pixels_height s) ++ "px" ++ newline
      ++ "Total Cabinets: " ++ str_int (total_cabinets s) ++ newline
      ++ "Total Pixels: " ++ fmt_commas (total_pixels s) ++ newline
      ++ "Aspect Ratio: " ++ fmt2 (Fin aspect) ++ newline).

Close Scope string_scope.

End Reports.

(** ** The test image *)

(** [format(n, '06x')]: lowercase hexadecimal, zero-padded to width 6, the
    sign counting in the width. *)
Definition hex_digit (d : Z) : ascii :=
  nth (Z.to_nat d)
      ["0"; "1"; "2"; "3"; "4"; "5"; "6"; "7"; "8"; "9";
       "a"; "b"; "c"; "d"; "e"; "f"]%char "0"%char.

Fixpoint hex_fixed (k : nat) (n : Z) : string :=
  match k with
  | O => EmptyString
  | Datatypes.S k' =>
      (hex_fixed k' (n / 16) ++ String (hex_digit (n mod 16)) EmptyString)%string
  end.

Definition hex_len (n : Z) : nat :=
  if n =? 0 then 1%nat else Datatypes.S (Z.to_nat (Z.log2 n / 4)).

Definition format_06x (n : Z) : string :=
  if n <? 0 then
    String "-" (hex_fixed (Nat.max 5 (hex_len (- n))) (- n))
  else hex_fixed (Nat.max 6 (hex_len n)) n.

(** What [ImageDraw] is asked to draw. *)
Inductive draw_command : Type :=
| Rectangle (box : Z * Z * Z * Z) (fill outline : option string)
| Text (position : R * R) (text fill : string).

(** A white RGB image and the drawing done on it so far. *)
Record image : Type := mk_image {
  img_size : Z * Z;
  img_drawn : list draw_command
}.

(** [Image.new('RGB', size, color='white')]: Pillow refuses a negative
    width or height with [ValueError].  Sizes beyond what Pillow can
    allocate are outside the model. *)
Definition Image_new (width height : Z) : result image :=
  if (width <? 0) || (height <? 0) then Raise ValueError
  else Ok {| img_size := (width, height); img_drawn := [] |}.

Definition draw (im : image) (c : draw_command) : image :=
  {| img_size := img_size im; img_drawn := img_drawn im ++ [c] |}.

Section TestImage.

(** [draw.textbbox(xy, text, font=font)] for the font in use, and
    [hash((x, y))]. *)
Variable textbbox : Z * Z -> string -> R * R * R * R.
Variable hash_pair : Z -> Z -> Z.

(** [create_test_image], lines 331-367. *)
Definition create_test_image (cabinets_wide cabinets_high tile_width
    tile_height : Z) : result image :=
  let total_width := cabinets_wide * tile_width in
  let total_height := cabinets_high * tile_height in
  im <- Image_new total_width total_height ;;
  Ok (fold_left
        (fun im x =>
           fold_left
             (fun im y =>
                let left := x * tile_width in
                let top := y * tile_height in
                let right := left + tile_width in
                let bottom := top + tile_height in
                let im :=
                  if (x + y) mod 2 =? 0 then
                    draw im (Rectangle (left, top, right, bottom)
                               (Some "lightgray"%string) None)
                  else im in
                let im :=
                  draw im (Rectangle (left, top, right, bottom) None
                             (Some "black"%string)) in
                let color :=
                  String "#" (format_06x (hash_pair x y mod 16777215)) in
                let cabinet_id :=
                  (str_int x ++ "," ++ str_int y)%string in
                let '(b0, b1, b2, b3) := textbbox (left, top) cabinet_id in
                let text_position :=
                  ((IZR left
                    + IZR (Int_part ((IZR tile_width - b2 + b0) / 2)))%R,
                   (IZR top
                    + IZR (Int_part ((IZR tile_height - b3 + b1) / 2)))%R) in
                draw im (Text text_position cabinet_id color))
             (range 0 cabinets_high) im)
        (range 0 cabinets_wide) im).

(** What is drawn for the tile of cabinet [(x, y)]: the light fill on even
    tiles, the outline, the label. *)
Definition tile_commands (tile_width tile_height x y : Z)
  : list draw_command :=
  let box :=
    (x * tile_width, y * tile_height, x * tile_width + tile_width,
     y * tile_height + tile_height) in
  let cabinet_id := (str_int x ++ "," ++ str_int y)%string in
  let '(b0, b1, b2, b3) :=
    textbbox (x * tile_width, y * tile_height) cabinet_id in
  (if (x + y) mod 2 =? 0
   then [Rectangle box (Some "lightgray"%string) None] else [])
  ++ [Rectangle box None (Some "black"%string);
      Text ((IZR (x * tile_width)
             + IZR (Int_part ((IZR tile_width - b2 + b0) / 2)))%R,
            (IZR (y * tile_height)
             + IZR (Int_part ((IZR tile_height - b3 + b1) / 2)))%R)
           cabinet_id
           (String "#" (format_06x (hash_pair x y mod 16777215)))].

End TestImage.

(** Several drawing commands in a row. *)
Definition draw_all (im : image) (cs : list draw_command) : image :=
  {| img_size := img_size im; img_drawn := img_drawn im ++ cs |}.

(** The number that a text of hexadecimal digits denotes. *)
Definition hex_digit_value (c : ascii) : Z :=
  let n := Z.of_nat (nat_of_ascii c) in
  if (48 <=? n) && (n <=? 57) then n - 48
  else if (97 <=? n) && (n <=? 102) then n - 87
  else 0.

Fixpoint hex_value_from (acc : Z) (s : string) : Z :=
  match s with
  | EmptyString => acc
  | String c s' => hex_value_from (16 * acc + hex_digit_value c) s'
  end.

Definition hex_value (s : string) : Z := hex_value_from 0 s.

(** ** The handlers *)

(** What a handler does to the outside: lines on standard output, the
    text of the data window, files, the status bar and modal error
    boxes. *)
Inductive event : Type :=
| Printed (line : string)
| DataWindowSet (text : string)
| FileWritten (filename text : string)
| StatusShown (message : string)
| CriticalShown (title message : string).

(** The exceptions that travel through a handler. *)
Inductive raised : Type :=
| Exn (e : exn)
| IOError
| OtherError (name : string).

(** A handler runs, leaves a trace of events, and returns or raises. *)
Definition handler (A : Type) : Type := list event * (raised + A).

Definition ret {A : Type} (a : A) : handler A := ([], inr a).

Definition throw {A : Type} (e : raised) : handler A := ([], inl e).

Definition emit (e : event) : handler unit := ([e], inr tt).

(** One [print] per line. *)
Definition print_lines (lines : list string) : handler unit :=
  (map Printed lines, inr tt).

Definition lift {A : Type} (r : result A) : handler A :=
  match r with
  | Ok a => ret a
  | Raise e => throw (Exn e)
  end.

Definition hbind {A B : Type} (m : handler A) (k : A -> handler B)
  : handler B :=
  match m with
  | (t, inl e) => (t, inl e)
  | (t, inr a) => let '(t', r) := k a in (t ++ t', r)
  end.

Notation "x <~ m ;; k" := (hbind m (fun x => k))
  (at level 61, m at next level, right associativity).

(** [try: body except ...]: [except_clause] gives the handler of the
    exceptions that a clause catches. *)
Definition try_except {A : Type} (body : handler A)
    (except_clause : raised -> option (handler A)) : handler A :=
  match body with
  | (t, inl e) =>
      match except_clause e with
      | Some h => let '(t', r) := h in (t ++ t', r)
      | None => (t, inl e)
      end
  | (t, inr a) => (t, inr a)
  end.


Section Handlers.

Variable py_float : string -> result R.
Variable fmt2 : pyfloat -> string.
Variable fmt6 : pyfloat -> string.
Variable fmt_commas : Z -> string.

(** The file name that [QFileDialog.getSaveFileName] returns (empty when
    the dialog is cancelled), whether writing a file succeeds, and the
    plotting of [plot_3d_preview], which belongs to matplotlib. *)
Variable save_dialog : string.
Variable writable : string -> bool.
Variable plot_3d_preview : list vec3 -> handler unit.

Open Scope string_scope.

(** [show_error_message], lines 369-371. *)
Definition show_error_message (title message : string) : handler unit :=
  _ <~ emit (CriticalShown title message) ;;
  emit (StatusShown ("Error: " ++ message)).

(** [calculate_geometry] with its call of [print_debug_info]. *)
Definition calculate_geometry_printing (p : params) : handler geometry :=
  g <~ lift (calculate_geometry_of p) ;;
  _ <~ print_lines
         (print_debug_info fmt2 (radius (g_curve g)) (arc_length (g_curve g))
            (chord_length (g_curve g)) (central_angle (g_curve g))) ;;
  ret g.

(** [save_obj] on the disk: the file takes the whole text, or [IOError]
    is raised. *)
Definition save_obj_to (filename : string) (vs : list vec3) (fs : list face)
    (ns : list vec3) (ts : list vec2) : handler unit :=
  if writable filename then
    emit (FileWritten filename (save_obj fmt6 vs fs ns ts))
  else throw IOError.

(** [save_obj_file], lines 292-301. *)
Definition save_obj_file (vs : list vec3) (fs : list face) (ns : list vec3)
    (ts : list vec2) : handler unit :=
  let filename := save_dialog in
  match filename with
  | String _ _ =>
      try_except
        (_ <~ save_obj_to filename vs fs ns ts ;;
         emit (StatusShown "OBJ file generated successfully!"))
        (fun e => match e with
                  | IOError => Some (throw IOError)
                  | _ => None
                  end)
  | EmptyString => emit (StatusShown "OBJ file generation cancelled.")
  end.

(** [generate_obj], lines 170-178. *)
Definition generate_obj (self_inputs : inputs) : handler unit :=
  try_except
    (p <~ lift (get_input_params py_float self_inputs) ;;
     g <~ calculate_geometry_printing p ;;
     save_obj_file (g_vertices g) (g_faces g) (g_normals g) (g_uvs g))
    (fun e =>
       match e with
       | Exn ValueError =>
           Some (show_error_message "Input Error"
                   "Please enter valid numeric values for all fields.")
       | IOError =>
           Some (show_error_message "File Error"
                   "An error occurred while saving the file.")
       | _ => None
       end).

(** [update_preview], lines 101-109. *)
Definition update_preview (self_inputs : inputs) : handler unit :=
  try_except
    (p <~ lift (get_input_params py_float self_inputs) ;;
     g <~ calculate_geometry_printing p ;;
     _ <~ plot_3d_preview (g_vertices g) ;;
     text <~ lift (update_data_window fmt2 fmt_commas p) ;;
     emit (DataWindowSet text))
    (fun e =>
       match e with
       | Exn ValueError => Some (ret tt)
       | _ => None
       end).

Close Scope string_scope.

End Handlers.

(** The grid sizes and tilts for which [calculate_geometry] returns in
    exact arithmetic. *)
Definition geometry_defined (w h : Z) (tilt : R) : Prop :=
  (w <= -1)%Z
  \/ (w = 0%Z /\ tilt = 0%R /\ (h <= -1)%Z)
  \/ ((1 <= w)%Z /\ h <> 0%Z /\ (tilt = 0%R \/ (2 <= w)%Z)).

(** ** Inputs within the reach of doubles *)

(** An integer far inside the range of doubles: Python converts it to a
    [float] without OverflowError, and so it does with a product of a few
    such integers. *)
Definition modest (n : Z) : Prop := Z.abs n < 2 ^ 200.

Definition modest_params (p : params) : Prop :=
  modest (p_cabinets_wide p) /\ modest (p_cabinets_high p)
  /\ modest (p_cabinet_width p) /\ modest (p_cabinet_height p)
  /\ modest (p_tile_width p) /\ modest (p_tile_height p).

(** A real whose size is such that doubles near it neither underflow to
    zero nor overflow to infinity, also after the conversion to radians. *)
Definition in_double_range (x : R) : Prop :=
  (/ IZR (2 ^ 1000) <= Rabs x <= IZR (2 ^ 1000))%R.

(** The walls on which the code divides by zero: one tilted column (the
    central angle), no column (x / cabinets_wide), no row
    (y / cabinets_high). *)
Definition zero_division_input (w h : Z) (tilt : R) : Prop :=
  (w = 1 /\ tilt <> 0%R)
  \/ (w = 0 /\ (tilt <> 0%R \/ 0 <= h))
  \/ (h = 0 /\ 1 <= w /\ modest w
      /\ (tilt = 0%R \/ (2 <= w /\ in_double_range (tilt * IZR (w - 1))))).

(** ** The curve on IEEE doubles *)

(** Lines 193-207 of [calculate_geometry] evaluated on binary64 floats, as
    CPython does: every operation rounds to the nearest double. *)
Module Binary64.

Import Floats.
Local Open Scope float_scope.

(** An [int] that meets a [float]: the nearest double, OverflowError when
    that is infinite. *)
Definition of_int (n : Z) : result float :=
  let f := SF2Prim (binary_normalize prec emax n 0 false) in
  if is_infinity f then Raise OverflowError else Ok f.

Definition truediv (a b : float) : result float :=
  if is_zero b then Raise ZeroDivisionError else Ok (a / b).

(** [math.radians]: the product with the double constant pi / 180. *)
Definition radians (x : float) : float :=
  x * (0x1.921fb54442d18p+1 / 180).

(** [math.sin]: ValueError at an infinity; below 2^-26 the double nearest
    to sin x is x itself; elsewhere the value is [libm_sin]'s. *)
Definition math_sin (libm_sin : float -> float) (x : float) : result float :=
  if is_infinity x then Raise ValueError
  else if abs x <? 0x1p-26 then Ok x
  else Ok (libm_sin x).

(** [Constants.SCALE_FACTOR = 0.001], the double nearest to 1/1000. *)
Definition SCALE_FACTOR : float := 0x1.0624dd2f1a9fcp-10.

Record curve : Type := mk_curve {
  radius : float;
  start_angle : float;
  central_angle : float;
  arc_length : float;
  chord_length : float
}.

Definition solve_curve (libm_sin : float -> float) (cabinets_wide : Z)
    (tilt_angle : float) (cabinet_width cabinet_height : Z) : result curve :=
  cw <- of_int cabinet_width ;;
  let cabinet_width_m := cw * SCALE_FACTOR in
  ch <- of_int cabinet_height ;;
  let cabinet_height_m := ch * SCALE_FACTOR in
  w <- of_int cabinets_wide ;;
  let arc_length := w * cabinet_width_m in
  if tilt_angle =? 0 then
    Ok {| radius := infinity; start_angle := 0; central_angle := 0;
          arc_length := arc_length; chord_length := arc_length |}
  else
    joints <- of_int (cabinets_wide - 1) ;;
    let central_angle := radians (tilt_angle * joints) in
    radius <- truediv arc_length central_angle ;;
    let start_angle := - central_angle / 2 in
    s <- math_sin libm_sin (central_angle / 2) ;;
    let chord_length := 2 * radius * s in
    Ok {| radius := radius; start_angle := start_angle;
          central_angle := central_angle;
          arc_length := arc_length; chord_length := chord_length |}.


End Binary64.

(** * Properties *)

(** ** Loops and ranges *)

Lemma fold_left_append {A B : Type} (f : A -> list B) (l : list A) :
  forall acc, fold_left (fun acc a => acc ++ f a) l acc = acc ++ flat_map f l.
Proof.
  induction l as [|a l IH]; intros acc; simpl.
  - symmetry. apply app_nil_r.
  - rewrite IH. rewrite <- app_assoc. reflexivity.
Qed.

Lemma fold_left_ext_in {A B : Type} (f g : B -> A -> B) (l : list A) :
  (forall b a, In a l -> f b a = g b a) ->
  forall b, fold_left f l b = fold_left g l b.
Proof.
  induction l as [|a l IH]; intros H b; simpl.
  - reflexivity.
  - rewrite H by (left; reflexivity). apply IH.
    intros b' a' Ha'. apply H. right. exact Ha'.
Qed.

Lemma range_length (lo hi : Z) : length (range lo hi) = Z.to_nat (hi - lo).
Proof. unfold range. rewrite length_map, length_seq. reflexivity. Qed.

Lemma range_In (lo hi x : Z) : In x (range lo hi) <-> (lo <= x < hi)%Z.
Proof.
  unfold range. rewrite in_map_iff. split.
  - intros [i [<- Hi]]. apply in_seq in Hi. lia.
  - intros H. exists (Z.to_nat (x - lo)). split; [lia|].
    apply in_seq. lia.
Qed.

Lemma range_nth (lo hi : Z) (i : nat) :
  (i < Z.to_nat (hi - lo))%nat ->
  nth_error (range lo hi) i = Some (lo + Z.of_nat i)%Z.
Proof.
  intros Hi. unfold range.
  rewrite nth_error_map, nth_error_seq.
  destruct (Nat.ltb_spec i (Z.to_nat (hi - lo))); [reflexivity | lia].
Qed.

(** Blocks of equal length: the element [j] of block [i] sits at position
    [i * n + j] of the concatenation. *)
Lemma flat_map_block_nth {A B : Type} (f : A -> list B) (n : nat) :
  forall (l : list A) (i j : nat) (a : A),
    (forall a', In a' l -> length (f a') = n) ->
    nth_error l i = Some a -> (j < n)%nat ->
    nth_error (flat_map f l) (i * n + j) = nth_error (f a) j.
Proof.
  induction l as [|a0 l IH]; intros i j a Hlen Hi Hj.
  - destruct i; discriminate.
  - destruct i as [|i]; simpl in *.
    + injection Hi as ->. apply nth_error_app1.
      rewrite Hlen by (left; reflexivity). exact Hj.
    + rewrite nth_error_app2 by (rewrite Hlen by (left; reflexivity); lia).
      rewrite Hlen by (left; reflexivity).
      replace (n + i * n + j - n)%nat with (i * n + j)%nat by lia.
      apply IH; auto.
Qed.

Lemma flat_map_block_length {A B : Type} (f : A -> list B) (n : nat) :
  forall l : list A,
    (forall a, In a l -> length (f a) = n) ->
    length (flat_map f l) = (length l * n)%nat.
Proof.
  induction l as [|a l IH]; intros Hlen; simpl.
  - reflexivity.
  - rewrite length_app, Hlen by (left; reflexivity).
    rewrite IH by (intros; apply Hlen; right; assumption). reflexivity.
Qed.

(** ** The grid *)

Lemma grid_length {A : Type} (cell : Z -> Z -> A) (w h : Z) :
  (0 <= w)%Z -> (0 <= h)%Z ->
  Z.of_nat (length (grid cell w h)) = ((w + 1) * (h + 1))%Z.
Proof.
  intros Hw Hh. unfold grid.
  rewrite (flat_map_block_length _ (Z.to_nat (h + 1))).
  - rewrite range_length. lia.
  - intros x _. rewrite length_map, range_length. f_equal. lia.
Qed.

Lemma grid_at_cell {A : Type} (cell : Z -> Z -> A) (w h x y : Z) :
  (0 <= x <= w)%Z -> (0 <= y <= h)%Z ->
  at_cell (grid cell w h) h x y = Some (cell x y).
Proof.
  intros Hx Hy. unfold at_cell, index, grid.
  replace (Z.to_nat (x * (h + 1) + y))
    with (Z.to_nat x * Z.to_nat (h + 1) + Z.to_nat y)%nat by nia.
  rewrite (flat_map_block_nth _ (Z.to_nat (h + 1)) _ _ _ x).
  - rewrite nth_error_map, range_nth by lia. simpl. f_equal. f_equal. lia.
  - intros x' _. rewrite length_map, range_length. f_equal. lia.
  - rewrite range_nth by lia. f_equal. lia.
  - lia.
Qed.

(** ** The vertex loops *)

Lemma truediv_ok (a b : R) : b <> 0%R -> truediv a b = Ok (a / b)%R.
Proof.
  intros Hb. unfold truediv. destruct (Req_dec_T b 0) as [E|_].
  - contradiction.
  - reflexivity.
Qed.

Lemma truediv_zero (a : R) : truediv a 0 = Raise ZeroDivisionError.
Proof.
  unfold truediv. destruct (Req_dec_T 0 0) as [_|N].
  - reflexivity.
  - exfalso. apply N. reflexivity.
Qed.

Lemma truediv_int_ok (a b : Z) :
  b <> 0%Z -> truediv (IZR a) (IZR b) = Ok (IZR a / IZR b)%R.
Proof. intros Hb. apply truediv_ok. apply not_0_IZR. exact Hb. Qed.

Lemma flat_map_singleton {A B : Type} (f : A -> B) (l : list A) :
  flat_map (fun a => [f a]) l = map f l.
Proof. induction l as [|a l IH]; simpl; [reflexivity | rewrite IH; reflexivity]. Qed.

Lemma push_cells_nil (acc : vertex_data) : push_cells acc [] [] [] = acc.
Proof. destruct acc. unfold push_cells. simpl. rewrite !app_nil_r. reflexivity. Qed.

Lemma push_cells_push (acc : vertex_data) vs ns ts vs' ns' ts' :
  push_cells (push_cells acc vs ns ts) vs' ns' ts'
  = push_cells acc (vs ++ vs') (ns ++ ns') (ts ++ ts').
Proof. unfold push_cells. simpl. rewrite !app_assoc. reflexivity. Qed.

(** A loop whose every iteration appends one block to each array appends
    the concatenation of the blocks. *)
Lemma for_each_push_cells {A : Type}
    (body : vertex_data -> A -> result vertex_data)
    (bv bn : A -> list vec3) (bt : A -> list vec2) (l : list A) :
  (forall acc a, In a l -> body acc a = Ok (push_cells acc (bv a) (bn a) (bt a))) ->
  forall acc,
    for_each body l acc
    = Ok (push_cells acc (flat_map bv l) (flat_map bn l) (flat_map bt l)).
Proof.
  induction l as [|a l IH]; intros Hbody acc; simpl.
  - rewrite push_cells_nil. reflexivity.
  - rewrite Hbody by (left; reflexivity). simpl.
    rewrite IH by (intros acc' a' Ha'; apply Hbody; right; exact Ha').
    rewrite push_cells_push. reflexivity.
Qed.

Section VertexData.

Variables cabinets_wide cabinets_high : Z.
Variables cabinet_width_m cabinet_height_m : R.
Variable rad : pyfloat.
Variables start central tilt_angle : R.

Hypothesis wide_nonzero : cabinets_wide <> 0%Z.
Hypothesis high_nonzero : cabinets_high <> 0%Z.

(** The inner loop of one column, once the column basis is known: every
    row appends one cell to each array. *)
Ltac rows_of_column :=
  rewrite <- !flat_map_singleton;
  apply for_each_push_cells; intros ? ? _;
  rewrite ?truediv_int_ok by assumption; reflexivity.

Lemma generate_vertex_data_curved :
  tilt_angle <> 0%R ->
  generate_vertex_data cabinets_wide cabinets_high cabinet_width_m
    cabinet_height_m rad start central tilt_angle
  = Ok {| vertices :=
            grid (curved_vertex rad start central cabinets_wide cabinet_height_m)
                 cabinets_wide cabinets_high;
          normals :=
            grid (curved_normal start central cabinets_wide)
                 cabinets_wide cabinets_high;
          uvs :=
            grid (cell_uv cabinets_wide cabinets_high)
                 cabinets_wide cabinets_high |}.
Proof.
  intros Htilt. unfold generate_vertex_data, grid.
  rewrite for_each_push_cells with
    (bv := fun x => map (curved_vertex rad start central cabinets_wide
                           cabinet_height_m x) (range 0 (cabinets_high + 1)))
    (bn := fun x => map (curved_normal start central cabinets_wide x)
                        (range 0 (cabinets_high + 1)))
    (bt := fun x => map (cell_uv cabinets_wide cabinets_high x)
                        (range 0 (cabinets_high + 1))).
  - reflexivity.
  - intros acc x _.
    destruct (Req_dec_T tilt_angle 0) as [E|_]; [contradiction|].
    rewrite truediv_int_ok by assumption. cbn [bind].
    rows_of_column.
Qed.

Lemma generate_vertex_data_flat :
  tilt_angle = 0%R ->
  generate_vertex_data cabinets_wide cabinets_high cabinet_width_m
    cabinet_height_m rad start central tilt_angle
  = Ok {| vertices :=
            grid (flat_vertex cabinet_width_m cabinet_height_m)
                 cabinets_wide cabinets_high;
          normals := grid flat_normal cabinets_wide cabinets_high;
          uvs :=
            grid (cell_uv cabinets_wide cabinets_high)
                 cabinets_wide cabinets_high |}.
Proof.
  intros Htilt. unfold generate_vertex_data, grid.
  rewrite for_each_push_cells with
    (bv := fun x => map (flat_vertex cabinet_width_m cabinet_height_m x)
                        (range 0 (cabinets_high + 1)))
    (bn := fun x => map (flat_normal x) (range 0 (cabinets_high + 1)))
    (bt := fun x => map (cell_uv cabinets_wide cabinets_high x)
                        (range 0 (cabinets_high + 1))).
  - reflexivity.
  - intros acc x _.
    destruct (Req_dec_T tilt_angle 0) as [_|N]; [|contradiction].
    cbn [bind]. rows_of_column.
Qed.

End VertexData.

Lemma grid_In {A : Type} (cell : Z -> Z -> A) (w h : Z) (a : A) :
  In a (grid cell w h) ->
  exists x y, (0 <= x <= w)%Z /\ (0 <= y <= h)%Z /\ a = cell x y.
Proof.
  unfold grid. rewrite in_flat_map. intros [x [Hx Ha]].
  apply in_map_iff in Ha. destruct Ha as [y [<- Hy]].
  apply range_In in Hx. apply range_In in Hy.
  exists x, y. repeat split; lia.
Qed.

(** Whatever the tilt, valid grid sizes give three arrays of one entry per
    grid cell. *)
Lemma generate_vertex_data_lengths (w h : Z) (cwm chm : R) (rad : pyfloat)
    (start central tilt : R) :
  (1 <= w)%Z -> (1 <= h)%Z ->
  exists d,
    generate_vertex_data w h cwm chm rad start central tilt = Ok d
    /\ Z.of_nat (length (vertices d)) = ((w + 1) * (h + 1))%Z
    /\ Z.of_nat (length (normals d)) = ((w + 1) * (h + 1))%Z
    /\ Z.of_nat (length (uvs d)) = ((w + 1) * (h + 1))%Z.
Proof.
  intros Hw Hh.
  destruct (Req_dec_T tilt 0) as [E|N].
  - eexists. split.
    + apply generate_vertex_data_flat; [lia | lia | exact E].
    + cbn [vertices normals uvs]. rewrite !grid_length by lia. auto.
  - eexists. split.
    + apply generate_vertex_data_curved; [lia | lia | exact N].
    + cbn [vertices normals uvs]. rewrite !grid_length by lia. auto.
Qed.

(** ** The faces *)

Lemma generate_faces_quads (w h : Z) :
  generate_faces w h
  = flat_map (fun x => map (quad h x) (range 0 h)) (range 1 (w + 1)).
Proof.
  unfold generate_faces.
  rewrite fold_left_ext_in with
    (g := fun faces x => faces ++ map (quad h x) (range 0 h)).
  - rewrite fold_left_append. reflexivity.
  - intros faces x _.
    rewrite fold_left_ext_in with (g := fun faces y => faces ++ [quad h x y]).
    + rewrite (fold_left_append (fun y => [quad h x y])).
      rewrite flat_map_singleton. reflexivity.
    + intros faces' y _. cbv zeta. unfold quad, index.
      f_equal. f_equal.
      replace (x * (h + 1) + y + 1)%Z with (x * (h + 1) + (y + 1))%Z by lia.
      replace ((x - 1) * (h + 1) + y + 1)%Z
        with ((x - 1) * (h + 1) + (y + 1))%Z by lia.
      reflexivity.
Qed.

Lemma generate_faces_In (w h : Z) (f : face) :
  In f (generate_faces w h) <->
  exists x y, (1 <= x <= w)%Z /\ (0 <= y < h)%Z /\ f = quad h x y.
Proof.
  rewrite generate_faces_quads, in_flat_map. split.
  - intros [x [Hx Hf]]. apply in_map_iff in Hf. destruct Hf as [y [<- Hy]].
    apply range_In in Hx. apply range_In in Hy.
    exists x, y. repeat split; lia.
  - intros [x [y [Hx [Hy ->]]]]. exists x. split.
    + apply range_In. lia.
    + apply in_map. apply range_In. lia.
Qed.

Lemma quad_indices_bounds (w h x y i : Z) :
  (1 <= x <= w)%Z -> (0 <= y < h)%Z ->
  In i (face_indices (quad h x y)) ->
  (0 <= i <= (w + 1) * (h + 1) - 1)%Z.
Proof.
  intros Hx Hy Hi. unfold quad, index, face_indices in Hi. simpl in Hi.
  destruct Hi as [<-|[<-|[<-|[<-|[]]]]]; nia.
Qed.

(** C5: the face list is the enumeration, for x in 1..=cabinets_wide and
    y in 0..cabinets_high-1 (x outermost), of the quads
    (index(x-1,y), index(x,y), index(x,y+1), index(x-1,y+1)) in that corner
    order, with index(x,y) = x*(cabinets_high+1) + y. *)
Theorem C5_faces_enumerate_quads (cabinets_wide cabinets_high : Z) :
  generate_faces cabinets_wide cabinets_high
  = flat_map
      (fun x =>
         map (fun y =>
                (index cabinets_high (x - 1) y, index cabinets_high x y,
                 index cabinets_high x (y + 1),
                 index cabinets_high (x - 1) (y + 1)))
             (range 0 cabinets_high))
      (range 1 (cabinets_wide + 1))
  /\ forall x y, index cabinets_high x y = (x * (cabinets_high + 1) + y)%Z.
Proof.
  split.
  - apply generate_faces_quads.
  - reflexivity.
Qed.

(** C4: for valid grid sizes the vertex, normal and UV lists each have
    exactly (cabinets_wide+1)*(cabinets_high+1) entries, the face list has
    exactly cabinets_wide*cabinets_high entries, and every face carries 4
    indices. *)
Theorem C4_grid_cardinality (cabinets_wide cabinets_high : Z)
    (cabinet_width_m cabinet_height_m : R) (rad : pyfloat)
    (start central tilt_angle : R) :
  (1 <= cabinets_wide)%Z -> (1 <= cabinets_high)%Z ->
  exists d,
    generate_vertex_data cabinets_wide cabinets_high cabinet_width_m
      cabinet_height_m rad start central tilt_angle = Ok d
    /\ Z.of_nat (length (vertices d))
       = ((cabinets_wide + 1) * (cabinets_high + 1))%Z
    /\ Z.of_nat (length (normals d))
       = ((cabinets_wide + 1) * (cabinets_high + 1))%Z
    /\ Z.of_nat (length (uvs d))
       = ((cabinets_wide + 1) * (cabinets_high + 1))%Z
    /\ Z.of_nat (length (generate_faces cabinets_wide cabinets_high))
       = (cabinets_wide * cabinets_high)%Z
    /\ forall f, In f (generate_faces cabinets_wide cabinets_high) ->
                 length (face_indices f) = 4%nat.
Proof.
  intros Hw Hh.
  destruct (generate_vertex_data_lengths cabinets_wide cabinets_high
              cabinet_width_m cabinet_height_m rad start central tilt_angle
              Hw Hh) as [d [Hd [Hv [Hn Ht]]]].
  exists d. repeat split; try assumption.
  - rewrite generate_faces_quads.
    rewrite (flat_map_block_length _ (Z.to_nat cabinets_high)).
    + rewrite range_length. lia.
    + intros x _. rewrite length_map, range_length. f_equal. lia.
  - intros [[[v1 v2] v3] v4] _. reflexivity.
Qed.

Lemma C4_grid_cardinality_witness :
  exists d,
    generate_vertex_data 2 1 (1 / 2) (1 / 2) PosInf 0 0 0 = Ok d
    /\ Z.of_nat (length (vertices d)) = ((2 + 1) * (1 + 1))%Z
    /\ Z.of_nat (length (normals d)) = ((2 + 1) * (1 + 1))%Z
    /\ Z.of_nat (length (uvs d)) = ((2 + 1) * (1 + 1))%Z
    /\ Z.of_nat (length (generate_faces 2 1)) = (2 * 1)%Z
    /\ forall f, In f (generate_faces 2 1) -> length (face_indices f) = 4%nat.
Proof.
  apply (C4_grid_cardinality 2 1 (1 / 2) (1 / 2) PosInf 0 0 0); lia.
Defined.

(** C6: for valid grid sizes every one of the four indices of every
    generated face lies in 0 .. (cabinets_wide+1)*(cabinets_high+1) - 1 and
    selects an entry of the vertex, the UV and the normal array. *)
Theorem C6_face_indices_in_bounds (cabinets_wide cabinets_high : Z)
    (cabinet_width_m cabinet_height_m : R) (rad : pyfloat)
    (start central tilt_angle : R) :
  (1 <= cabinets_wide)%Z -> (1 <= cabinets_high)%Z ->
  exists d,
    generate_vertex_data cabinets_wide cabinets_high cabinet_width_m
      cabinet_height_m rad start central tilt_angle = Ok d
    /\ forall f i,
        In f (generate_faces cabinets_wide cabinets_high) ->
        In i (face_indices f) ->
        (0 <= i <= (cabinets_wide + 1) * (cabinets_high + 1) - 1)%Z
        /\ (exists v, nth_error (vertices d) (Z.to_nat i) = Some v)
        /\ (exists t, nth_error (uvs d) (Z.to_nat i) = Some t)
        /\ (exists n, nth_error (normals d) (Z.to_nat i) = Some n).
Proof.
  intros Hw Hh.
  destruct (generate_vertex_data_lengths cabinets_wide cabinets_high
              cabinet_width_m cabinet_height_m rad start central tilt_angle
              Hw Hh) as [d [Hd [Hv [Hn Ht]]]].
  exists d. split; [exact Hd|].
  intros f i Hf Hi.
  apply generate_faces_In in Hf. destruct Hf as [x [y [Hx [Hy ->]]]].
  pose proof (quad_indices_bounds _ _ _ _ _ Hx Hy Hi) as Hb.
  split; [exact Hb|].
  assert (Hsome : forall (B : Type) (l : list B),
             Z.of_nat (length l) = ((cabinets_wide + 1) * (cabinets_high + 1))%Z ->
             exists b, nth_error l (Z.to_nat i) = Some b).
  { intros B l Hl. destruct (nth_error l (Z.to_nat i)) as [b|] eqn:E.
    - exists b. reflexivity.
    - apply nth_error_None in E. lia. }
  repeat split; apply Hsome; assumption.
Qed.

Lemma C6_face_indices_in_bounds_witness :
  exists d,
    generate_vertex_data 3 2 1 (1 / 2) (Fin 4) (-1) 2 5 = Ok d
    /\ forall f i,
        In f (generate_faces 3 2) ->
        In i (face_indices f) ->
        (0 <= i <= (3 + 1) * (2 + 1) - 1)%Z
        /\ (exists v, nth_error (vertices d) (Z.to_nat i) = Some v)
        /\ (exists t, nth_error (uvs d) (Z.to_nat i) = Some t)
        /\ (exists n, nth_error (normals d) (Z.to_nat i) = Some n).
Proof.
  apply (C6_face_indices_in_bounds 3 2 1 (1 / 2) (Fin 4) (-1) 2 5); lia.
Defined.

Example generate_faces_2_1 : generate_faces 2 1 = [(0, 2, 3, 1); (2, 4, 5, 3)]%Z.
Proof. reflexivity. Qed.

Example generate_faces_2_2 :
  generate_faces 2 2
  = [(0, 3, 4, 1); (1, 4, 5, 2); (3, 6, 7, 4); (4, 7, 8, 5)]%Z.
Proof. reflexivity. Qed.

(** ** The vertex formulas *)

Open Scope R_scope.

(** C7: with nonzero tilt and valid grid sizes, the vertex of grid cell
    (x, y) is (radius*sin(angle), y*cabinet_height_m, radius*(1-cos(angle)))
    with angle = start_angle + (x/cabinets_wide)*central_angle, its normal
    is (sin(angle), 0, -cos(angle)), its UV is (x/cabinets_wide,
    y/cabinets_high), and the three arrays are in column-major order: the
    entry of cell (x, y) sits at x*(cabinets_high+1) + y. *)
Theorem C7_curved_vertex_formula (cabinets_wide cabinets_high : Z)
    (cabinet_width_m cabinet_height_m r start central tilt_angle : R) :
  (1 <= cabinets_wide)%Z -> (1 <= cabinets_high)%Z -> tilt_angle <> 0 ->
  exists d,
    generate_vertex_data cabinets_wide cabinets_high cabinet_width_m
      cabinet_height_m (Fin r) start central tilt_angle = Ok d
    /\ forall x y,
        (0 <= x <= cabinets_wide)%Z -> (0 <= y <= cabinets_high)%Z ->
        let angle := start + (IZR x / IZR cabinets_wide) * central in
        nth_error (vertices d) (Z.to_nat (x * (cabinets_high + 1) + y))
        = Some (Fin (r * sin angle), Fin (IZR y * cabinet_height_m),
                Fin (r * (1 - cos angle)))
        /\ nth_error (normals d) (Z.to_nat (x * (cabinets_high + 1) + y))
           = Some (Fin (sin angle), Fin 0, Fin (- cos angle))
        /\ nth_error (uvs d) (Z.to_nat (x * (cabinets_high + 1) + y))
           = Some (Fin (IZR x / IZR cabinets_wide),
                   Fin (IZR y / IZR cabinets_high)).
Proof.
  intros Hw Hh Htilt. eexists. split.
  - apply generate_vertex_data_curved; [lia | lia | exact Htilt].
  - intros x y Hx Hy angle. cbn [vertices normals uvs].
    repeat split.
    + apply (grid_at_cell (curved_vertex (Fin r) start central cabinets_wide
                             cabinet_height_m)); assumption.
    + apply (grid_at_cell (curved_normal start central cabinets_wide));
        assumption.
    + apply (grid_at_cell (cell_uv cabinets_wide cabinets_high)); assumption.
Qed.

Lemma C7_curved_vertex_formula_witness :
  exists d,
    generate_vertex_data 3 2 1 (1 / 2) (Fin 4) (-1) 2 5 = Ok d
    /\ forall x y,
        (0 <= x <= 3)%Z -> (0 <= y <= 2)%Z ->
        let angle := -1 + (IZR x / IZR 3) * 2 in
        nth_error (vertices d) (Z.to_nat (x * (2 + 1) + y))
        = Some (Fin (4 * sin angle), Fin (IZR y * (1 / 2)),
                Fin (4 * (1 - cos angle)))
        /\ nth_error (normals d) (Z.to_nat (x * (2 + 1) + y))
           = Some (Fin (sin angle), Fin 0, Fin (- cos angle))
        /\ nth_error (uvs d) (Z.to_nat (x * (2 + 1) + y))
           = Some (Fin (IZR x / IZR 3), Fin (IZR y / IZR 2)).
Proof.
  apply (C7_curved_vertex_formula 3 2 1 (1 / 2) 4 (-1) 2 5); [lia | lia | lra].
Defined.

(** The flat 2 x 1 wall of 500 mm cabinets. *)
Example flat_wall_2_1 :
  generate_vertex_data 2 1 (500 * SCALE_FACTOR) (500 * SCALE_FACTOR)
    PosInf 0 0 0
  = Ok {| vertices :=
            [flat_vertex (500 * SCALE_FACTOR) (500 * SCALE_FACTOR) 0 0;
             flat_vertex (500 * SCALE_FACTOR) (500 * SCALE_FACTOR) 0 1;
             flat_vertex (500 * SCALE_FACTOR) (500 * SCALE_FACTOR) 1 0;
             flat_vertex (500 * SCALE_FACTOR) (500 * SCALE_FACTOR) 1 1;
             flat_vertex (500 * SCALE_FACTOR) (500 * SCALE_FACTOR) 2 0;
             flat_vertex (500 * SCALE_FACTOR) (500 * SCALE_FACTOR) 2 1];
          normals := repeat (Fin 0, Fin 0, Fin (-1)) 6;
          uvs := [cell_uv 2 1 0 0; cell_uv 2 1 0 1; cell_uv 2 1 1 0;
                  cell_uv 2 1 1 1; cell_uv 2 1 2 0; cell_uv 2 1 2 1] |}.
Proof.
  rewrite generate_vertex_data_flat by (reflexivity || lia). reflexivity.
Qed.

(** ** The curve *)

Lemma radians_zero_columns (t : R) : radians (t * IZR (1 - 1)) = 0.
Proof. unfold radians. simpl. lra. Qed.



Lemma solve_curve_flat (w : Z) (cwm : R) :
  solve_curve w 0 cwm
  = Ok {| radius := PosInf; start_angle := 0; central_angle := 0;
          arc_length := IZR w * cwm; chord_length := IZR w * cwm |}.
Proof.
  unfold solve_curve. destruct (Req_dec_T 0 0) as [_|N].
  - reflexivity.
  - exfalso. apply N. reflexivity.
Qed.


Lemma solve_curve_single_column (t cwm : R) :
  t <> 0 -> solve_curve 1 t cwm = Raise ZeroDivisionError.
Proof.
  intros Ht. unfold solve_curve.
  destruct (Req_dec_T t 0) as [E|_]; [contradiction|].
  rewrite radians_zero_columns, truediv_zero. reflexivity.
Qed.

(** C1 (the code departs from it): with cabinets_wide = 1 and a nonzero
    tilt the code does not take the flat-wall branch; it enters the curved
    branch, where central_angle is 0, and the division
    arc_length / central_angle raises ZeroDivisionError. *)
Theorem C1_single_column_tilt_divides_by_zero (cabinets_high : Z)
    (tilt_angle cabinet_width cabinet_height : R) (tile_width tile_height : Z) :
  tilt_angle <> 0 ->
  radians (tilt_angle * IZR (1 - 1)) = 0
  /\ calculate_geometry 1 cabinets_high tilt_angle cabinet_width cabinet_height
       tile_width tile_height
     = Raise ZeroDivisionError.
Proof.
  intros Ht. split.
  - apply radians_zero_columns.
  - unfold calculate_geometry.
    rewrite solve_curve_single_column by exact Ht. reflexivity.
Qed.

Lemma C1_single_column_tilt_divides_by_zero_witness :
  radians (10 * IZR (1 - 1)) = 0
  /\ calculate_geometry 1 1 10 500 500 64 64 = Raise ZeroDivisionError.
Proof.
  apply (C1_single_column_tilt_divides_by_zero 1 10 500 500 64 64). lra.
Defined.











Close Scope R_scope.

(** ** The OBJ text *)

Open Scope string_scope.

Lemma string_app_assoc (s1 s2 s3 : string) :
  (s1 ++ s2) ++ s3 = s1 ++ (s2 ++ s3).
Proof.
  induction s1 as [|c s1 IH]; simpl.
  - reflexivity.
  - rewrite IH. reflexivity.
Qed.

Lemma string_app_nil_r (s : string) : s ++ "" = s.
Proof.
  induction s as [|c s IH]; simpl.
  - reflexivity.
  - rewrite IH. reflexivity.
Qed.

Lemma lines_of_cons {A : Type} (line : A -> string) (a : A) (l : list A) :
  lines_of line (a :: l) = line a ++ lines_of line l.
Proof.
  unfold lines_of. simpl. destruct (map line l) as [|s ls] eqn:E.
  - simpl. symmetry. apply string_app_nil_r.
  - reflexivity.
Qed.

(** A loop that writes one line per element writes the lines in order. *)
Lemma write_lines {A : Type} (line : A -> string) (l : list A) :
  forall f, fold_left (fun f a => write f (line a)) l f = f ++ lines_of line l.
Proof.
  induction l as [|a l IH]; intros f.
  - simpl. symmetry. apply string_app_nil_r.
  - simpl fold_left. rewrite IH, lines_of_cons. unfold write.
    apply string_app_assoc.
Qed.

(** C8: the OBJ text is, in this order, the comment header line, one
    [v x y z] line per vertex, one [vt u v] line per UV, one [vn x y z]
    line per normal (every number through the 6-decimal formatter), and one
    face line per face in which each of the four corners is the 1-based
    index written three times, [i/i/i]. *)
Theorem C8_obj_sections_in_order (fmt6 : pyfloat -> string)
    (vs : list vec3) (fs : list face) (ns : list vec3) (ts : list vec2) :
  save_obj fmt6 vs fs ns ts
  = ("# OBJ file" ++ newline)
    ++ lines_of (fun v : vec3 =>
                   "v " ++ fmt6 (vert_x v) ++ " " ++ fmt6 (vert_y v) ++ " "
                   ++ fmt6 (vert_z v) ++ newline) vs
    ++ lines_of (fun vt : vec2 =>
                   "vt " ++ fmt6 (fst vt) ++ " " ++ fmt6 (snd vt) ++ newline) ts
    ++ lines_of (fun vn : vec3 =>
                   "vn " ++ fmt6 (vert_x vn) ++ " " ++ fmt6 (vert_y vn) ++ " "
                   ++ fmt6 (vert_z vn) ++ newline) ns
    ++ lines_of (fun fc : face =>
                   let '(a, b, c, d) := fc in
                   "f " ++ corner a ++ " " ++ corner b ++ " " ++ corner c
                   ++ " " ++ corner d ++ newline) fs
  /\ forall i, corner i
               = str_int (i + 1) ++ "/" ++ str_int (i + 1) ++ "/"
                 ++ str_int (i + 1).
Proof.
  split; [|reflexivity].
  unfold save_obj.
  rewrite fold_left_ext_in with (l := vs)
    (g := fun f v => write f (v_line fmt6 v))
    by (intros f [[v0 v1] v2] _; reflexivity).
  rewrite fold_left_ext_in with (l := ts)
    (g := fun f vt => write f (vt_line fmt6 vt))
    by (intros f [vt0 vt1] _; reflexivity).
  rewrite fold_left_ext_in with (l := ns)
    (g := fun f vn => write f (vn_line fmt6 vn))
    by (intros f [[vn0 vn1] vn2] _; reflexivity).
  rewrite fold_left_ext_in with (l := fs)
    (g := fun f fc => write f (f_line fc)).
  - rewrite !write_lines. unfold write. rewrite !string_app_assoc.
    cbn [append].
    replace (lines_of f_line fs)
      with (lines_of (fun fc : face =>
                        let '(a, b, c, d) := fc in
                        "f " ++ corner a ++ " " ++ corner b ++ " " ++ corner c
                        ++ " " ++ corner d ++ newline) fs).
    + reflexivity.
    + unfold lines_of. f_equal. apply map_ext.
      intros [[[a b] c] d]. reflexivity.
  - intros f [[[f0 f1] f2] f3] _. unfold write, f_line, corner.
    cbn [face_indices]. rewrite !string_app_assoc. reflexivity.
Qed.

Close Scope string_scope.

(** ** Integer fields *)

















Lemma decimal_point_foreign : foreign_char "."%char.
Proof. repeat split. Qed.

Example py_int_examples :
  py_int "500" = Ok 500 /\ py_int " -36 " = Ok (-36)
  /\ py_int "1_000" = Ok 1000 /\ py_int "007" = Ok 7
  /\ py_int "500.5" = Raise ValueError /\ py_int "" = Raise ValueError
  /\ py_int "1__0" = Raise ValueError /\ py_int "5_" = Raise ValueError
  /\ py_int "+" = Raise ValueError /\ py_int "- 5" = Raise ValueError.
Proof. repeat split. Qed.


Open Scope string_scope.




Example default_form_accepted :
  get_input_params (fun _ => Ok 5%R) default_inputs
  = Ok {| p_cabinets_wide := 36; p_cabinets_high := 8; p_tilt_angle := 5%R;
          p_cabinet_width := 500; p_cabinet_height := 500;
          p_tile_width := 64; p_tile_height := 64 |}.
Proof. reflexivity. Qed.

Close Scope string_scope.

(** * Further properties of the code *)

(** ** Walls that the code does not validate *)

Open Scope R_scope.


Lemma range_first (lo hi : Z) :
  (lo < hi)%Z -> exists rest, range lo hi = lo :: rest.
Proof.
  intros H. unfold range.
  destruct (Z.to_nat (hi - lo)) as [|n] eqn:E; [lia|].
  simpl. eexists. f_equal. lia.
Qed.

Lemma radians_central_nonzero (t : R) (w : Z) :
  t <> 0 -> w <> 1%Z -> radians (t * IZR (w - 1)) <> 0.
Proof.
  intros Ht Hw. unfold radians.
  assert (Hk : IZR (w - 1) <> 0) by (apply not_0_IZR; lia).
  pose proof PI_RGT_0 as Hpi.
  apply Rmult_integral_contrapositive_currified.
  - apply Rmult_integral_contrapositive_currified; assumption.
  - lra.
Qed.

Lemma solve_curve_tilted (w : Z) (t cwm : R) :
  t <> 0 -> w <> 1%Z ->
  solve_curve w t cwm
  = Ok {| radius := Fin (IZR w * cwm / radians (t * IZR (w - 1)));
          start_angle := - radians (t * IZR (w - 1)) / 2;
          central_angle := radians (t * IZR (w - 1));
          arc_length := IZR w * cwm;
          chord_length :=
            2 * (IZR w * cwm / radians (t * IZR (w - 1)))
            * sin (radians (t * IZR (w - 1)) / 2) |}.
Proof.
  intros Ht Hw. unfold solve_curve.
  destruct (Req_dec_T t 0) as [E|_]; [contradiction|].
  rewrite truediv_ok by (apply radians_central_nonzero; assumption).
  reflexivity.
Qed.



Lemma generate_vertex_data_zero_wide (h : Z) (cwm chm : R) (rad : pyfloat)
    (start central tilt : R) :
  tilt <> 0 \/ (0 <= h)%Z ->
  generate_vertex_data 0 h cwm chm rad start central tilt
  = Raise ZeroDivisionError.
Proof.
  intros H. unfold generate_vertex_data.
  change (range 0 (0 + 1)) with [0%Z]. cbn [for_each].
  destruct (Req_dec_T tilt 0) as [E|N].
  - destruct H as [H|H]; [contradiction|].
    destruct (range_first 0 (h + 1)) as [rest ->]; [lia|].
    cbn [bind for_each]. rewrite truediv_zero. reflexivity.
  - rewrite truediv_zero. reflexivity.
Qed.

Lemma generate_vertex_data_zero_high (w : Z) (cwm chm : R) (rad : pyfloat)
    (start central tilt : R) :
  (1 <= w)%Z ->
  generate_vertex_data w 0 cwm chm rad start central tilt
  = Raise ZeroDivisionError.
Proof.
  intros Hw. unfold generate_vertex_data.
  destruct (range_first 0 (w + 1)) as [rest ->]; [lia|].
  change (range 0 (0 + 1)) with [0%Z]. cbn [for_each].
  assert (Hq : forall a, truediv a (IZR w) = Ok (a / IZR w))
    by (intros a; apply truediv_ok; apply not_0_IZR; lia).
  destruct (Req_dec_T tilt 0) as [E|N].
  - cbn [bind]. rewrite Hq. cbn [bind]. rewrite truediv_zero. reflexivity.
  - rewrite !Hq. cbn [bind]. rewrite truediv_zero. reflexivity.
Qed.

Lemma calculate_geometry_undefined (w h : Z) (tilt cw ch : R) (tw th : Z) :
  ~ geometry_defined w h tilt ->
  calculate_geometry w h tilt cw ch tw th = Raise ZeroDivisionError.
Proof.
  intros Hundef. unfold calculate_geometry, geometry_defined in *.
  destruct (Req_dec_T tilt 0) as [E|N].
  - subst tilt. rewrite solve_curve_flat. cbn [bind radius start_angle central_angle].
    destruct (Z.eq_dec w 0) as [->|Hw0].
    + rewrite generate_vertex_data_zero_wide; [reflexivity|].
      right. destruct (Z_le_gt_dec 0 h); [assumption|].
      exfalso. apply Hundef. right. left. repeat split. lia.
    + assert (Hw : (1 <= w)%Z).
      { destruct (Z_le_gt_dec 1 w); [assumption|].
        exfalso. apply Hundef. left. lia. }
      assert (Hh : h = 0%Z).
      { destruct (Z.eq_dec h 0); [assumption|].
        exfalso. apply Hundef. right. right. auto. }
      subst h. rewrite generate_vertex_data_zero_high by exact Hw. reflexivity.
  - destruct (Z.eq_dec w 1) as [->|Hw1].
    + rewrite solve_curve_single_column by exact N. reflexivity.
    + rewrite solve_curve_tilted by assumption.
      cbn [bind radius start_angle central_angle].
      destruct (Z.eq_dec w 0) as [->|Hw0].
      * rewrite generate_vertex_data_zero_wide; [reflexivity | left; exact N].
      * assert (Hw : (2 <= w)%Z).
        { destruct (Z_le_gt_dec 2 w); [assumption|].
          exfalso. apply Hundef. left. lia. }
        assert (Hh : h = 0%Z).
        { destruct (Z.eq_dec h 0); [assumption|].
          exfalso. apply Hundef. right. right. repeat split; auto; lia. }
        subst h. rewrite generate_vertex_data_zero_high by lia. reflexivity.
Qed.

Lemma zero_division_input_undefined (w h : Z) (tilt : R) :
  zero_division_input w h tilt -> ~ geometry_defined w h tilt.
Proof.
  unfold zero_division_input, geometry_defined.
  intros [[Hw Ht]|[[Hw Hth]|[Hh [Hw _]]]] [G|[[G [G' G'']]|[G [G' G'']]]];
    subst; try lia.
  - destruct G'' as [G''|G'']; [contradiction | lia].
  - destruct Hth as [Hth|Hth]; [contradiction | lia].
Qed.


Lemma modest_small (n : Z) : (Z.abs n < 1000000)%Z -> modest n.
Proof.
  intros H. unfold modest.
  apply Z.lt_trans with 1000000%Z; [exact H|]. reflexivity.
Qed.










(** ** The shape of the curved wall *)



(** X4: every normal that [generate_vertex_data] emits is a horizontal
    unit vector, on a flat wall as on a curved one. *)
Theorem X4_normals_are_unit_vectors (cabinets_wide cabinets_high : Z)
    (cabinet_width_m cabinet_height_m : R) (rad : pyfloat)
    (start central tilt_angle : R) :
  (1 <= cabinets_wide)%Z -> (1 <= cabinets_high)%Z ->
  exists d,
    generate_vertex_data cabinets_wide cabinets_high cabinet_width_m
      cabinet_height_m rad start central tilt_angle = Ok d
    /\ forall n, In n (normals d) ->
         exists nx nz,
           n = (Fin nx, Fin 0, Fin nz) /\ nx * nx + nz * nz = 1.
Proof.
  intros Hw Hh. destruct (Req_dec_T tilt_angle 0) as [E|N].
  - rewrite generate_vertex_data_flat by (assumption || lia).
    eexists. split; [reflexivity|]. cbn [normals].
    intros n Hn. apply grid_In in Hn. destruct Hn as [x [y [_ [_ ->]]]].
    exists 0, (-1). split; [reflexivity | lra].
  - rewrite generate_vertex_data_curved by (assumption || lia).
    eexists. split; [reflexivity|]. cbn [normals].
    intros n Hn. apply grid_In in Hn. destruct Hn as [x [y [_ [_ ->]]]].
    unfold curved_normal. do 2 eexists. split; [reflexivity|].
    match goal with
    | |- context [sin ?a] => pose proof (sin2_cos2 a) as Hsc; unfold Rsqr in Hsc
    end.
    nra.
Qed.

Lemma X4_normals_are_unit_vectors_witness :
  exists d,
    generate_vertex_data 3 2 1 (1 / 2) (Fin 4) (-1) 2 5 = Ok d
    /\ forall n, In n (normals d) ->
         exists nx nz,
           n = (Fin nx, Fin 0, Fin nz) /\ nx * nx + nz * nz = 1.
Proof.
  apply (X4_normals_are_unit_vectors 3 2 1 (1 / 2) (Fin 4) (-1) 2 5); lia.
Defined.








(** X8: texture coordinates stay in the unit square, on a flat wall as on
    a curved one: cell (0, 0) has UV (0, 0), cell (cabinets_wide,
    cabinets_high) has UV (1, 1), and every cell has 0 <= u, v <= 1. *)
Theorem X8_uvs_in_unit_square (cabinets_wide cabinets_high : Z)
    (cabinet_width_m cabinet_height_m : R) (rad : pyfloat)
    (start central tilt_angle : R) :
  (1 <= cabinets_wide)%Z -> (1 <= cabinets_high)%Z ->
  exists d,
    generate_vertex_data cabinets_wide cabinets_high cabinet_width_m
      cabinet_height_m rad start central tilt_angle = Ok d
    /\ at_cell (uvs d) cabinets_high 0 0 = Some (Fin 0, Fin 0)
    /\ at_cell (uvs d) cabinets_high cabinets_wide cabinets_high
       = Some (Fin 1, Fin 1)
    /\ forall t, In t (uvs d) ->
         exists u v, t = (Fin u, Fin v) /\ 0 <= u <= 1 /\ 0 <= v <= 1.
Proof.
  intros Hw Hh.
  assert (Hw0 : 0 < IZR cabinets_wide) by (apply IZR_lt; lia).
  assert (Hh0 : 0 < IZR cabinets_high) by (apply IZR_lt; lia).
  assert (Huv : exists d,
             generate_vertex_data cabinets_wide cabinets_high cabinet_width_m
               cabinet_height_m rad start central tilt_angle = Ok d
             /\ uvs d = grid (cell_uv cabinets_wide cabinets_high)
                          cabinets_wide cabinets_high).
  { destruct (Req_dec_T tilt_angle 0) as [E|N].
    - rewrite generate_vertex_data_flat by (assumption || lia).
      eexists. split; reflexivity.
    - rewrite generate_vertex_data_curved by (assumption || lia).
      eexists. split; reflexivity. }
  destruct Huv as [d [Hd Huvs]]. exists d. split; [exact Hd|].
  rewrite Huvs. rewrite !grid_at_cell by lia. unfold cell_uv.
  repeat split.
  - f_equal. f_equal; f_equal; field; lra.
  - f_equal. f_equal; f_equal; field; lra.
  - intros t Ht. apply grid_In in Ht. destruct Ht as [x [y [Hx [Hy ->]]]].
    do 2 eexists. split; [reflexivity|].
    assert (Hx0 : 0 <= IZR x <= IZR cabinets_wide)
      by (split; apply IZR_le; lia).
    assert (Hy0 : 0 <= IZR y <= IZR cabinets_high)
      by (split; apply IZR_le; lia).
    split; split.
    + apply Rmult_le_pos; [lra|]. left. apply Rinv_0_lt_compat. exact Hw0.
    + apply Rmult_le_reg_r with (IZR cabinets_wide); [exact Hw0|].
      unfold Rdiv. rewrite Rmult_assoc, Rinv_l by lra. lra.
    + apply Rmult_le_pos; [lra|]. left. apply Rinv_0_lt_compat. exact Hh0.
    + apply Rmult_le_reg_r with (IZR cabinets_high); [exact Hh0|].
      unfold Rdiv. rewrite Rmult_assoc, Rinv_l by lra. lra.
Qed.

Lemma X8_uvs_in_unit_square_witness :
  exists d,
    generate_vertex_data 3 2 1 (1 / 2) (Fin 4) (-1) 2 5 = Ok d
    /\ at_cell (uvs d) 2 0 0 = Some (Fin 0, Fin 0)
    /\ at_cell (uvs d) 2 3 2 = Some (Fin 1, Fin 1)
    /\ forall t, In t (uvs d) ->
         exists u v, t = (Fin u, Fin v) /\ 0 <= u <= 1 /\ 0 <= v <= 1.
Proof.
  apply (X8_uvs_in_unit_square 3 2 1 (1 / 2) (Fin 4) (-1) 2 5); lia.
Defined.



Close Scope R_scope.

(** ** The faces and the grid *)

Lemma NoDup_flat_map {A B : Type} (f : A -> list B) (l : list A) :
  NoDup l ->
  (forall a, In a l -> NoDup (f a)) ->
  (forall a a' b, In a l -> In a' l -> In b (f a) -> In b (f a') -> a = a') ->
  NoDup (flat_map f l).
Proof.
  induction l as [|a l IH]; intros Hl Hf Hdisj; simpl.
  - constructor.
  - inversion Hl as [|a0 l0 Hnotin Hl']; subst.
    apply NoDup_app.
    + apply Hf. left. reflexivity.
    + apply IH; [exact Hl' | |].
      * intros a' Ha'. apply Hf. right. exact Ha'.
      * intros a1 a2 b H1 H2. apply Hdisj; right; assumption.
    + intros b Hb Hb'. apply in_flat_map in Hb'.
      destruct Hb' as [a' [Ha' Hb']].
      assert (a = a') by (apply (Hdisj a a' b); auto; [left|right]; auto).
      subst a'. contradiction.
Qed.

Lemma NoDup_map_in {A B : Type} (f : A -> B) (l : list A) :
  (forall a a', In a l -> In a' l -> f a = f a' -> a = a') ->
  NoDup l -> NoDup (map f l).
Proof.
  induction l as [|a l IH]; intros Hinj Hl; simpl.
  - constructor.
  - inversion Hl as [|a0 l0 Hnotin Hl']; subst. constructor.
    + intros Hin. apply in_map_iff in Hin. destruct Hin as [a' [Heq Ha']].
      assert (a' = a) by (apply Hinj; [right | left |]; auto).
      subst a'. contradiction.
    + apply IH; [|exact Hl'].
      intros a1 a2 H1 H2. apply Hinj; right; assumption.
Qed.

Lemma range_NoDup (lo hi : Z) : NoDup (range lo hi).
Proof.
  unfold range. apply NoDup_map_in.
  - intros i j _ _ H. lia.
  - apply seq_NoDup.
Qed.

Lemma quad_first_corner (h x y x' y' : Z) :
  (0 <= y < h)%Z -> (0 <= y' < h)%Z ->
  quad h x y = quad h x' y' -> x = x' /\ y = y'.
Proof.
  intros Hy Hy' H. unfold quad, index in H.
  injection H as H1 _ _ _.
  assert (Hd : ((x' - x) * (h + 1) = y - y')%Z) by lia.
  assert (Hx : x = x').
  { destruct (Z.lt_trichotomy x x') as [Hlt|[Heq|Hgt]]; [|exact Heq|].
    - assert ((h + 1) <= (x' - x) * (h + 1))%Z by nia. lia.
    - assert ((x' - x) * (h + 1) <= - (h + 1))%Z by nia. lia. }
  subst x'. split; [reflexivity | lia].
Qed.

(** X10: no face is emitted twice, and the four corners of every face are
    four different vertices. *)
Theorem X10_faces_are_distinct_quads (cabinets_wide cabinets_high : Z) :
  NoDup (generate_faces cabinets_wide cabinets_high)
  /\ forall f, In f (generate_faces cabinets_wide cabinets_high) ->
               NoDup (face_indices f).
Proof.
  split.
  - rewrite generate_faces_quads. apply NoDup_flat_map.
    + apply range_NoDup.
    + intros x _. apply NoDup_map_in.
      * intros y y' Hy Hy' H. apply range_In in Hy. apply range_In in Hy'.
        apply (quad_first_corner _ _ _ _ _ Hy Hy' H).
      * apply range_NoDup.
    + intros x x' f _ _ Hf Hf'.
      apply in_map_iff in Hf. destruct Hf as [y [<- Hy]].
      apply in_map_iff in Hf'. destruct Hf' as [y' [Hq Hy']].
      apply range_In in Hy. apply range_In in Hy'.
      symmetry in Hq. apply (quad_first_corner _ _ _ _ _ Hy Hy' Hq).
  - intros f Hf. apply generate_faces_In in Hf.
    destruct Hf as [x [y [Hx [Hy ->]]]].
    unfold quad, index, face_indices.
    repeat constructor; simpl; intuition nia.
Qed.

(** X11: for valid grid sizes no vertex is left out of the faces: every
    index from 0 to (cabinets_wide+1)*(cabinets_high+1) - 1 is a corner of
    some generated face. *)
Theorem X11_every_vertex_is_a_corner (cabinets_wide cabinets_high i : Z) :
  1 <= cabinets_wide -> 1 <= cabinets_high ->
  0 <= i <= (cabinets_wide + 1) * (cabinets_high + 1) - 1 ->
  exists f,
    In f (generate_faces cabinets_wide cabinets_high)
    /\ In i (face_indices f).
Proof.
  intros Hw Hh Hi.
  set (x := i / (cabinets_high + 1)).
  set (y := i mod (cabinets_high + 1)).
  assert (Hi' : i = x * (cabinets_high + 1) + y).
  { unfold x, y. rewrite Z.mul_comm. apply Z.div_mod. lia. }
  assert (Hy : 0 <= y <= cabinets_high).
  { unfold y. pose proof (Z.mod_pos_bound i (cabinets_high + 1)). lia. }
  assert (Hx : 0 <= x <= cabinets_wide).
  { unfold x. split.
    - apply Z.div_pos; lia.
    - apply Z.lt_succ_r. apply Z.div_lt_upper_bound; lia. }
  clearbody x y.
  exists (quad cabinets_high (Z.max x 1) (Z.min y (cabinets_high - 1))).
  split.
  - apply generate_faces_In. do 2 eexists. split; [|split; [|reflexivity]]; lia.
  - unfold quad, index, face_indices.
    destruct (Z.eq_dec x 0) as [Hx0|Hx0];
      destruct (Z.eq_dec y cabinets_high) as [Hyh|Hyh].
    + right. right. right. left. subst. lia.
    + left. subst. lia.
    + right. right. left. subst. nia.
    + right. left. subst. nia.
Qed.

Lemma X11_every_vertex_is_a_corner_witness :
  exists f, In f (generate_faces 2 1) /\ In 5 (face_indices f).
Proof.
  apply (X11_every_vertex_is_a_corner 2 1 5); lia.
Defined.

Open Scope R_scope.

(** X12: every face is an upright quad one cabinet high: its first and
    fourth corners lie above each other in one column (same x and z), so do
    its second and third, the first two corners share the height
    y * cabinet_height_m and the last two the height
    (y+1) * cabinet_height_m. *)
Theorem X12_faces_are_upright_quads (cabinets_wide cabinets_high : Z)
    (cabinet_width_m cabinet_height_m : R) (rad : pyfloat)
    (start central tilt_angle : R) :
  (1 <= cabinets_wide)%Z -> (1 <= cabinets_high)%Z ->
  exists d,
    generate_vertex_data cabinets_wide cabinets_high cabinet_width_m
      cabinet_height_m rad start central tilt_angle = Ok d
    /\ forall v1 v2 v3 v4,
        In (v1, v2, v3, v4) (generate_faces cabinets_wide cabinets_high) ->
        exists p1 p2 p3 p4 y,
          nth_error (vertices d) (Z.to_nat v1) = Some p1
          /\ nth_error (vertices d) (Z.to_nat v2) = Some p2
          /\ nth_error (vertices d) (Z.to_nat v3) = Some p3
          /\ nth_error (vertices d) (Z.to_nat v4) = Some p4
          /\ vert_x p1 = vert_x p4 /\ vert_z p1 = vert_z p4
          /\ vert_x p2 = vert_x p3 /\ vert_z p2 = vert_z p3
          /\ vert_y p1 = Fin (IZR y * cabinet_height_m)
          /\ vert_y p2 = Fin (IZR y * cabinet_height_m)
          /\ vert_y p3 = Fin (IZR (y + 1) * cabinet_height_m)
          /\ vert_y p4 = Fin (IZR (y + 1) * cabinet_height_m).
Proof.
  intros Hw Hh.
  assert (Hgrid : exists (d : vertex_data) (cell : Z -> Z -> vec3),
             generate_vertex_data cabinets_wide cabinets_high cabinet_width_m
               cabinet_height_m rad start central tilt_angle = Ok d
             /\ vertices d = grid cell cabinets_wide cabinets_high
             /\ forall x y y',
                 vert_x (cell x y) = vert_x (cell x y')
                 /\ vert_z (cell x y) = vert_z (cell x y')
                 /\ vert_y (cell x y) = Fin (IZR y * cabinet_height_m)).
  { destruct (Req_dec_T tilt_angle 0) as [E|N].
    - rewrite generate_vertex_data_flat by (assumption || lia).
      do 2 eexists. split; [reflexivity|]. split; [reflexivity|].
      intros x y y'. repeat split.
    - rewrite generate_vertex_data_curved by (assumption || lia).
      do 2 eexists. split; [reflexivity|]. split; [reflexivity|].
      intros x y y'. repeat split. }
  destruct Hgrid as [d [cell [Hd [Hv Hcell]]]].
  exists d. split; [exact Hd|].
  intros v1 v2 v3 v4 Hf. apply generate_faces_In in Hf.
  destruct Hf as [x [y [Hx [Hy Hq]]]]. unfold quad in Hq.
  injection Hq as -> -> -> ->.
  exists (cell (x - 1)%Z y), (cell x y), (cell x (y + 1)%Z),
         (cell (x - 1)%Z (y + 1)%Z), y.
  rewrite Hv.
  pose proof (fun a b Ha Hb => grid_at_cell cell cabinets_wide cabinets_high
                                 a b Ha Hb) as Hat.
  unfold at_cell in Hat.
  rewrite !Hat by lia.
  repeat split;
    first [ apply (proj1 (Hcell _ _ _))
          | apply (proj1 (proj2 (Hcell _ _ _)))
          | apply (proj2 (proj2 (Hcell _ _ 0%Z))) ].
Qed.

Lemma X12_faces_are_upright_quads_witness :
  exists d,
    generate_vertex_data 3 2 1 (1 / 2) (Fin 4) (-1) 2 5 = Ok d
    /\ forall v1 v2 v3 v4,
        In (v1, v2, v3, v4) (generate_faces 3 2) ->
        exists p1 p2 p3 p4 y,
          nth_error (vertices d) (Z.to_nat v1) = Some p1
          /\ nth_error (vertices d) (Z.to_nat v2) = Some p2
          /\ nth_error (vertices d) (Z.to_nat v3) = Some p3
          /\ nth_error (vertices d) (Z.to_nat v4) = Some p4
          /\ vert_x p1 = vert_x p4 /\ vert_z p1 = vert_z p4
          /\ vert_x p2 = vert_x p3 /\ vert_z p2 = vert_z p3
          /\ vert_y p1 = Fin (IZR y * (1 / 2))
          /\ vert_y p2 = Fin (IZR y * (1 / 2))
          /\ vert_y p3 = Fin (IZR (y + 1) * (1 / 2))
          /\ vert_y p4 = Fin (IZR (y + 1) * (1 / 2)).
Proof.
  apply (X12_faces_are_upright_quads 3 2 1 (1 / 2) (Fin 4) (-1) 2 5); lia.
Defined.

Close Scope R_scope.

(** ** Reading the form *)

Lemma list_ascii_of_string_app (s1 s2 : string) :
  list_ascii_of_string (s1 ++ s2)
  = list_ascii_of_string s1 ++ list_ascii_of_string s2.
Proof.
  induction s1 as [|c s1 IH]; simpl.
  - reflexivity.
  - rewrite IH. reflexivity.
Qed.

Lemma lstrip_spaces_app (l s : list ascii) :
  forallb is_space l = true -> lstrip (l ++ s) = lstrip s.
Proof.
  induction l as [|c l IH]; intros H; simpl in *.
  - reflexivity.
  - apply andb_prop in H. destruct H as [Hc Hl]. rewrite Hc. apply IH, Hl.
Qed.

Lemma lstrip_app_kept (s t : list ascii) :
  lstrip s <> [] -> lstrip (s ++ t) = lstrip s ++ t.
Proof.
  induction s as [|c s IH]; intros H; simpl in *.
  - contradiction.
  - destruct (is_space c); [apply IH, H | reflexivity].
Qed.

Lemma lstrip_app_blank (s t : list ascii) :
  lstrip s = [] -> forallb is_space t = true -> lstrip (s ++ t) = [].
Proof.
  induction s as [|c s IH]; intros H Ht; simpl in *.
  - rewrite <- (app_nil_r t). rewrite lstrip_spaces_app by exact Ht.
    reflexivity.
  - destruct (is_space c); [apply IH; assumption | discriminate].
Qed.

Lemma forallb_rev {A : Type} (f : A -> bool) (l : list A) :
  forallb f l = true -> forallb f (rev l) = true.
Proof.
  rewrite !forallb_forall. intros H a Ha. apply H. apply in_rev. exact Ha.
Qed.

Lemma strip_surrounding_spaces (l1 s l2 : list ascii) :
  forallb is_space l1 = true -> forallb is_space l2 = true ->
  strip (l1 ++ s ++ l2) = strip s.
Proof.
  intros H1 H2. unfold strip. rewrite lstrip_spaces_app by exact H1.
  destruct (lstrip s) as [|c s'] eqn:E.
  - rewrite lstrip_app_blank by assumption. reflexivity.
  - rewrite lstrip_app_kept by (rewrite E; discriminate).
    rewrite E, rev_app_distr.
    rewrite lstrip_spaces_app by (apply forallb_rev; exact H2).
    reflexivity.
Qed.

(** X13: [int] ignores the white space around a field text: blanks typed
    before or after a number change neither whether it is accepted nor its
    value. *)
Theorem X13_py_int_ignores_surrounding_blanks (before text after : string) :
  forallb is_space (list_ascii_of_string before) = true ->
  forallb is_space (list_ascii_of_string after) = true ->
  py_int (before ++ text ++ after) = py_int text.
Proof.
  intros Hb Ha. unfold py_int.
  rewrite !list_ascii_of_string_app.
  rewrite strip_surrounding_spaces by assumption. reflexivity.
Qed.

Lemma X13_py_int_ignores_surrounding_blanks_witness :
  py_int ("  " ++ "1_000" ++ " ") = py_int "1_000".
Proof.
  apply (X13_py_int_ignores_surrounding_blanks "  " "1_000" " "); reflexivity.
Defined.

(** ** The data window and the debug printout *)

Open Scope R_scope.

Lemma data_summary_flat (p : params) :
  p_tilt_angle p = 0 ->
  exists s,
    data_summary p = Ok s
    /\ arc_length_m s = IZR (p_cabinets_wide p * p_cabinet_width p) / 1000
    /\ chord_length_m s = arc_length_m s
    /\ total_width_mm s = (p_cabinets_wide p * p_cabinet_width p)%Z
    /\ total_height_mm s = (p_cabinets_high p * p_cabinet_height p)%Z.
Proof.
  intros Ht. unfold data_summary.
  destruct (Req_dec_T (p_tilt_angle p) 0) as [_|N]; [|contradiction].
  cbn [bind]. eexists. split; [reflexivity|]. repeat split.
Qed.


Lemma data_summary_single_column (p : params) :
  p_tilt_angle p <> 0 -> p_cabinets_wide p = 1%Z ->
  data_summary p = Raise ZeroDivisionError.
Proof.
  intros Ht Hw. unfold data_summary.
  destruct (Req_dec_T (p_tilt_angle p) 0) as [E|_]; [contradiction|].
  rewrite Hw, radians_zero_columns, truediv_zero. reflexivity.
Qed.



(** X16: [update_data_window] has two divisions that nothing guards.
    For modest integer fields it raises ZeroDivisionError when the wall is
    one tilted column wide (the central angle is 0), and on a flat wall
    when the total height cabinets_high * cabinet_height is 0 (the aspect
    ratio). *)
Theorem X16_data_window_divides_by_zero (fmt2 : pyfloat -> string)
    (fmt_commas : Z -> string) (p : params) :
  modest_params p ->
  (p_cabinets_wide p = 1%Z /\ p_tilt_angle p <> 0)
  \/ (p_tilt_angle p = 0
      /\ (p_cabinets_high p * p_cabinet_height p = 0)%Z) ->
  update_data_window fmt2 fmt_commas p = Raise ZeroDivisionError.
Proof.
  intros _ [[Hw Ht]|[Ht Hh]]; unfold update_data_window.
  - rewrite data_summary_single_column by assumption. reflexivity.
  - destruct (data_summary_flat p Ht) as [s [-> [_ [_ [_ Hth]]]]].
    cbn [bind]. rewrite Hth, Hh, truediv_zero. reflexivity.
Qed.

Lemma X16_data_window_divides_by_zero_witness :
  update_data_window (fun _ => EmptyString) (fun _ => EmptyString)
    (mk_params 36 8 0 500 0 64 64)
  = Raise ZeroDivisionError.
Proof.
  apply (X16_data_window_divides_by_zero (fun _ => EmptyString)
           (fun _ => EmptyString) (mk_params 36 8 0 500 0 64 64)).
  - repeat split; apply modest_small; simpl; lia.
  - right. split; reflexivity.
Defined.

Close Scope R_scope.

(** ** The test image *)

Example format_06x_examples :
  format_06x 255 = "0000ff"%string /\ format_06x 0 = "000000"%string
  /\ format_06x 16777214 = "fffffe"%string
  /\ format_06x 19088743 = "1234567"%string
  /\ format_06x (-255) = "-000ff"%string.
Proof. repeat split. Qed.

Lemma hex_fixed_length (k : nat) :
  forall n, String.length (hex_fixed k n) = k.
Proof.
  assert (Happ : forall s t,
             String.length (s ++ t)%string
             = (String.length s + String.length t)%nat).
  { induction s as [|c s IH]; intros t; simpl; [reflexivity|].
    rewrite IH. reflexivity. }
  induction k as [|k IH]; intros n; simpl.
  - reflexivity.
  - rewrite Happ, IH. simpl. lia.
Qed.

Lemma hex_value_from_app (s : string) (c : ascii) :
  forall acc,
    hex_value_from acc (s ++ String c EmptyString)
    = 16 * hex_value_from acc s + hex_digit_value c.
Proof.
  induction s as [|c' s IH]; intros acc; simpl.
  - reflexivity.
  - apply IH.
Qed.

Lemma hex_digit_round_trip (d : Z) :
  0 <= d < 16 -> hex_digit_value (hex_digit d) = d.
Proof.
  intros Hd.
  assert (H : d = 0 \/ d = 1 \/ d = 2 \/ d = 3 \/ d = 4 \/ d = 5 \/ d = 6
              \/ d = 7 \/ d = 8 \/ d = 9 \/ d = 10 \/ d = 11 \/ d = 12
              \/ d = 13 \/ d = 14 \/ d = 15) by lia.
  repeat (destruct H as [->|H]; [reflexivity|]). subst d. reflexivity.
Qed.

Lemma hex_fixed_value (k : nat) :
  forall n, 0 <= n -> hex_value (hex_fixed k n) = n mod 16 ^ Z.of_nat k.
Proof.
  unfold hex_value. induction k as [|k IH]; intros n Hn.
  - simpl. rewrite Z.mod_1_r. reflexivity.
  - cbn [hex_fixed]. rewrite hex_value_from_app.
    rewrite IH by (apply Z.div_pos; lia).
    rewrite hex_digit_round_trip by (apply Z.mod_pos_bound; lia).
    rewrite Nat2Z.inj_succ, Z.pow_succ_r by lia.
    rewrite Z.rem_mul_r by lia. lia.
Qed.

Lemma format_06x_small (n : Z) :
  0 <= n < 16777216 -> format_06x n = hex_fixed 6 n.
Proof.
  intros Hn. unfold format_06x.
  destruct (Z.ltb_spec n 0) as [Hneg|_]; [lia|].
  assert (Hlen : (hex_len n <= 6)%nat).
  { unfold hex_len. destruct (Z.eqb_spec n 0) as [_|Hn0]; [lia|].
    assert (Hlog : Z.log2 n < 24).
    { apply Z.log2_lt_pow2; [lia|]. change (2 ^ 24) with 16777216. lia. }
    assert (0 <= Z.log2 n) by apply Z.log2_nonneg.
    assert (Z.log2 n / 4 < 6) by (apply Z.div_lt_upper_bound; lia).
    assert (0 <= Z.log2 n / 4) by (apply Z.div_pos; lia).
    lia. }
  rewrite Nat.max_l by exact Hlen. reflexivity.
Qed.

(** X18: the colour of a cabinet label is always a well-formed RGB code:
    for every hash value, '#' followed by exactly six hexadecimal digits
    that denote hash mod 0xFFFFFF; since the modulus is 0xFFFFFF and not
    0x1000000, the code "#ffffff" (white, the background colour) never
    comes out. *)
Theorem X18_label_colour_is_rgb_code (hash_value : Z) :
  let colour := String "#" (format_06x (hash_value mod 16777215)) in
  String.length colour = 7%nat
  /\ hex_value (format_06x (hash_value mod 16777215))
     = hash_value mod 16777215
  /\ colour <> "#ffffff"%string.
Proof.
  intros colour. unfold colour.
  assert (Hm : 0 <= hash_value mod 16777215 < 16777215)
    by (apply Z.mod_pos_bound; lia).
  assert (Hv : hex_value (format_06x (hash_value mod 16777215))
               = hash_value mod 16777215).
  { rewrite format_06x_small by lia. rewrite hex_fixed_value by lia.
    apply Z.mod_small. change (16 ^ Z.of_nat 6) with 16777216. lia. }
  repeat split.
  - cbn [String.length]. rewrite format_06x_small by lia.
    rewrite hex_fixed_length. reflexivity.
  - exact Hv.
  - intros H. injection H as H. rewrite H in Hv.
    change (hex_value "ffffff") with 16777215 in Hv. lia.
Qed.

Lemma draw_all_nil (im : image) : draw_all im [] = im.
Proof. destruct im. unfold draw_all. simpl. rewrite app_nil_r. reflexivity. Qed.

Lemma draw_all_app (im : image) (cs cs' : list draw_command) :
  draw_all (draw_all im cs) cs' = draw_all im (cs ++ cs').
Proof. unfold draw_all. simpl. rewrite app_assoc. reflexivity. Qed.

Lemma fold_left_draw_all {A : Type} (f : A -> list draw_command) (l : list A) :
  forall im,
    fold_left (fun im a => draw_all im (f a)) l im
    = draw_all im (flat_map f l).
Proof.
  induction l as [|a l IH]; intros im; simpl.
  - symmetry. apply draw_all_nil.
  - rewrite IH, draw_all_app. reflexivity.
Qed.

Section TestImageFacts.

Variable textbbox : Z * Z -> string -> R * R * R * R.
Variable hash_pair : Z -> Z -> Z.

(** The two loops draw the tiles column by column. *)
Lemma create_test_image_tiles (w h tw th : Z) :
  0 <= w * tw -> 0 <= h * th ->
  create_test_image textbbox hash_pair w h tw th
  = Ok {| img_size := (w * tw, h * th);
          img_drawn :=
            flat_map
              (fun x =>
                 flat_map (tile_commands textbbox hash_pair tw th x)
                          (range 0 h))
              (range 0 w) |}.
Proof.
  intros Hw Hh. unfold create_test_image, Image_new.
  destruct (Z.ltb_spec (w * tw) 0) as [Hneg|_]; [lia|].
  destruct (Z.ltb_spec (h * th) 0) as [Hneg|_]; [lia|].
  cbn [orb bind]. f_equal.
  rewrite fold_left_ext_in with
    (g := fun im x =>
            draw_all im (flat_map (tile_commands textbbox hash_pair tw th x)
                                  (range 0 h))).
  - rewrite fold_left_draw_all. reflexivity.
  - intros im x _.
    rewrite fold_left_ext_in with
      (g := fun im y =>
              draw_all im (tile_commands textbbox hash_pair tw th x y)).
    + apply fold_left_draw_all.
    + intros im' y _. unfold tile_commands. cbv zeta.
      destruct (textbbox (x * tw, y * th) (str_int x ++ "," ++ str_int y))
        as [[[b0 b1] b2] b3].
      destruct ((x + y) mod 2 =? 0); unfold draw, draw_all; cbn [img_size img_drawn];
        rewrite <- ?app_assoc; reflexivity.
Qed.

Lemma tile_commands_In (tw th x y : Z) (c : draw_command) :
  In c (tile_commands textbbox hash_pair tw th x y) ->
  (c = Rectangle (x * tw, y * th, x * tw + tw, y * th + th)
         (Some "lightgray"%string) None
   /\ (x + y) mod 2 = 0)
  \/ c = Rectangle (x * tw, y * th, x * tw + tw, y * th + th) None
           (Some "black"%string)
  \/ exists position,
       c = Text position (str_int x ++ "," ++ str_int y)
             (String "#" (format_06x (hash_pair x y mod 16777215))).
Proof.
  unfold tile_commands. cbv zeta.
  destruct (textbbox (x * tw, y * th) (str_int x ++ "," ++ str_int y))
    as [[[b0 b1] b2] b3].
  intros Hin. apply in_app_or in Hin. destruct Hin as [Hin|Hin].
  - destruct (Z.eqb_spec ((x + y) mod 2) 0) as [E|_]; [|contradiction].
    destruct Hin as [<-|[]]. left. split; [reflexivity | exact E].
  - destruct Hin as [<-|[<-|[]]].
    + right. left. reflexivity.
    + right. right. eexists. reflexivity.
Qed.

(** X20: whatever the font and the hash function, everything drawn on the
    test image belongs to one cabinet (x, y) of the grid: a rectangle
    spanning that cabinet's tile from (x * tile_width, y * tile_height) to
    ((x+1) * tile_width, (y+1) * tile_height), filled light gray only when
    x + y is even, or the label "x,y" in the colour of hash((x, y)). *)
Theorem X20_test_image_draws_tiles_only (cabinets_wide cabinets_high
    tile_width tile_height : Z) :
  0 <= cabinets_wide * tile_width -> 0 <= cabinets_high * tile_height ->
  exists im,
    create_test_image textbbox hash_pair cabinets_wide cabinets_high
      tile_width tile_height = Ok im
    /\ forall c, In c (img_drawn im) ->
         exists x y,
           0 <= x < cabinets_wide /\ 0 <= y < cabinets_high
           /\ ((c = Rectangle (x * tile_width, y * tile_height,
                               (x + 1) * tile_width, (y + 1) * tile_height)
                      (Some "lightgray"%string) None
                /\ (x + y) mod 2 = 0)
               \/ c = Rectangle (x * tile_width, y * tile_height,
                                 (x + 1) * tile_width, (y + 1) * tile_height)
                        None (Some "black"%string)
               \/ exists position,
                    c = Text position (str_int x ++ "," ++ str_int y)
                          (String "#"
                             (format_06x (hash_pair x y mod 16777215)))).
Proof.
  intros Hw Hh. rewrite create_test_image_tiles by assumption.
  eexists. split; [reflexivity|]. cbn [img_drawn].
  intros c Hc. apply in_flat_map in Hc. destruct Hc as [x [Hx Hc]].
  apply in_flat_map in Hc. destruct Hc as [y [Hy Hc]].
  apply range_In in Hx. apply range_In in Hy.
  exists x, y. split; [lia|]. split; [lia|].
  replace ((x + 1) * tile_width) with (x * tile_width + tile_width) by lia.
  replace ((y + 1) * tile_height) with (y * tile_height + tile_height) by lia.
  apply tile_commands_In. exact Hc.
Qed.

(** X21: every cabinet of the grid is drawn: its tile gets the black
    outline and its label, and the light gray fill exactly on the
    checkerboard squares where x + y is even. *)
Theorem X21_test_image_covers_every_cabinet (cabinets_wide cabinets_high
    tile_width tile_height x y : Z) :
  0 <= cabinets_wide * tile_width -> 0 <= cabinets_high * tile_height ->
  0 <= x < cabinets_wide -> 0 <= y < cabinets_high ->
  exists im,
    create_test_image textbbox hash_pair cabinets_wide cabinets_high
      tile_width tile_height = Ok im
    /\ In (Rectangle (x * tile_width, y * tile_height,
                      x * tile_width + tile_width,
                      y * tile_height + tile_height)
             None (Some "black"%string)) (img_drawn im)
    /\ (exists position,
          In (Text position (str_int x ++ "," ++ str_int y)
                (String "#" (format_06x (hash_pair x y mod 16777215))))
             (img_drawn im))
    /\ ((x + y) mod 2 = 0 ->
        In (Rectangle (x * tile_width, y * tile_height,
                       x * tile_width + tile_width,
                       y * tile_height + tile_height)
              (Some "lightgray"%string) None) (img_drawn im)).
Proof.
  intros Hw Hh Hx Hy. rewrite create_test_image_tiles by assumption.
  eexists. split; [reflexivity|]. cbn [img_drawn].
  assert (Htile : forall c,
             In c (tile_commands textbbox hash_pair tile_width tile_height x y) ->
             In c (flat_map
                     (fun x0 =>
                        flat_map
                          (tile_commands textbbox hash_pair tile_width
                             tile_height x0)
                          (range 0 cabinets_high))
                     (range 0 cabinets_wide))).
  { intros c Hc. apply in_flat_map. exists x. split; [apply range_In; lia|].
    apply in_flat_map. exists y. split; [apply range_In; lia | exact Hc]. }
  unfold tile_commands in Htile. cbv zeta in Htile.
  destruct (textbbox (x * tile_width, y * tile_height)
              (str_int x ++ "," ++ str_int y)) as [[[b0 b1] b2] b3].
  repeat split.
  - apply Htile. apply in_or_app. right. left. reflexivity.
  - eexists. apply Htile. apply in_or_app. right. right. left. reflexivity.
  - intros Heven. apply Htile. apply in_or_app. left.
    rewrite Heven. left. reflexivity.
Qed.

End TestImageFacts.

Lemma X20_test_image_draws_tiles_only_witness :
  exists im,
    create_test_image (fun _ _ => (0, 0, 12, 9)%R) Z.add 4 2 64 64 = Ok im
    /\ forall c, In c (img_drawn im) ->
         exists x y,
           0 <= x < 4 /\ 0 <= y < 2
           /\ ((c = Rectangle (x * 64, y * 64, (x + 1) * 64, (y + 1) * 64)
                      (Some "lightgray"%string) None
                /\ (x + y) mod 2 = 0)
               \/ c = Rectangle (x * 64, y * 64, (x + 1) * 64, (y + 1) * 64)
                        None (Some "black"%string)
               \/ exists position,
                    c = Text position (str_int x ++ "," ++ str_int y)
                          (String "#"
                             (format_06x (Z.add x y mod 16777215)))).
Proof.
  apply (X20_test_image_draws_tiles_only (fun _ _ => (0, 0, 12, 9)%R) Z.add
           4 2 64 64); lia.
Defined.

Lemma X21_test_image_covers_every_cabinet_witness :
  exists im,
    create_test_image (fun _ _ => (0, 0, 12, 9)%R) Z.add 4 2 64 64 = Ok im
    /\ In (Rectangle (3 * 64, 1 * 64, 3 * 64 + 64, 1 * 64 + 64)
             None (Some "black"%string)) (img_drawn im)
    /\ (exists position,
          In (Text position (str_int 3 ++ "," ++ str_int 1)
                (String "#" (format_06x (Z.add 3 1 mod 16777215))))
             (img_drawn im))
    /\ ((3 + 1) mod 2 = 0 ->
        In (Rectangle (3 * 64, 1 * 64, 3 * 64 + 64, 1 * 64 + 64)
              (Some "lightgray"%string) None) (img_drawn im)).
Proof.
  apply (X21_test_image_covers_every_cabinet (fun _ _ => (0, 0, 12, 9)%R)
           Z.add 4 2 64 64 3 1); lia.
Defined.

(** ** The handlers *)

Section HandlerFacts.

Variable py_float : string -> result R.
Variable fmt2 : pyfloat -> string.
Variable fmt6 : pyfloat -> string.
Variable fmt_commas : Z -> string.
Variable save_dialog : string.
Variable writable : string -> bool.
Variable plot_3d_preview : list vec3 -> handler unit.

Lemma handlers_when_geometry_raises (self_inputs : inputs) (p : params) :
  get_input_params py_float self_inputs = Ok p ->
  calculate_geometry_of p = Raise ZeroDivisionError ->
  generate_obj py_float fmt2 fmt6 save_dialog writable self_inputs
  = ([], inl (Exn ZeroDivisionError))
  /\ update_preview py_float fmt2 fmt_commas plot_3d_preview self_inputs
     = ([], inl (Exn ZeroDivisionError)).
Proof.
  intros Hp Hg.
  unfold generate_obj, update_preview, calculate_geometry_printing.
  rewrite Hp. cbn [lift ret hbind app]. rewrite Hg. split; reflexivity.
Qed.


End HandlerFacts.

(** X22: a form that does not parse is answered differently by the two
    callers: [generate_obj] shows the "Input Error" box and the status
    message and writes nothing; [update_preview] does nothing at all.
    Neither lets the ValueError escape. *)
Theorem X22_invalid_form_is_reported_or_ignored
    (py_float : string -> result R) (fmt2 fmt6 : pyfloat -> string)
    (fmt_commas : Z -> string) (save_dialog : string)
    (writable : string -> bool) (plot_3d_preview : list vec3 -> handler unit)
    (self_inputs : inputs) :
  get_input_params py_float self_inputs = Raise ValueError ->
  generate_obj py_float fmt2 fmt6 save_dialog writable self_inputs
  = ([CriticalShown "Input Error"
        "Please enter valid numeric values for all fields.";
      StatusShown "Error: Please enter valid numeric values for all fields."],
     inr tt)
  /\ update_preview py_float fmt2 fmt_commas plot_3d_preview self_inputs
     = ([], inr tt).
Proof.
  intros Hp. unfold generate_obj, update_preview.
  rewrite Hp. split; reflexivity.
Qed.

Lemma X22_invalid_form_is_reported_or_ignored_witness :
  generate_obj (fun _ => Ok 5%R) (fun _ => EmptyString) (fun _ => EmptyString)
    "wall.obj" (fun _ => true)
    (set_text default_inputs "Cabinet Width" "500.5")
  = ([CriticalShown "Input Error"
        "Please enter valid numeric values for all fields.";
      StatusShown "Error: Please enter valid numeric values for all fields."],
     inr tt)
  /\ update_preview (fun _ => Ok 5%R) (fun _ => EmptyString)
       (fun _ => EmptyString) (fun _ => ret tt)
       (set_text default_inputs "Cabinet Width" "500.5")
     = ([], inr tt).
Proof.
  apply (X22_invalid_form_is_reported_or_ignored (fun _ => Ok 5%R)
           (fun _ => EmptyString) (fun _ => EmptyString)
           (fun _ => EmptyString) "wall.obj" (fun _ => true)
           (fun _ => ret tt)
           (set_text default_inputs "Cabinet Width" "500.5")).
  reflexivity.
Defined.

(** X23: a division by zero in the geometry is caught by neither caller.
    When the form parses to a wall of one tilted column, of no column or
    of no row (cabinet sizes modest), [generate_obj] and [update_preview]
    both let the ZeroDivisionError escape, having shown, printed and
    written nothing. *)
Theorem X23_division_by_zero_escapes
    (py_float : string -> result R) (fmt2 fmt6 : pyfloat -> string)
    (fmt_commas : Z -> string) (save_dialog : string)
    (writable : string -> bool) (plot_3d_preview : list vec3 -> handler unit)
    (self_inputs : inputs) (p : params) :
  get_input_params py_float self_inputs = Ok p ->
  zero_division_input (p_cabinets_wide p) (p_cabinets_high p)
    (p_tilt_angle p) ->
  modest (p_cabinet_width p) -> modest (p_cabinet_height p) ->
  generate_obj py_float fmt2 fmt6 save_dialog writable self_inputs
  = ([], inl (Exn ZeroDivisionError))
  /\ update_preview py_float fmt2 fmt_commas plot_3d_preview self_inputs
     = ([], inl (Exn ZeroDivisionError)).
Proof.
  intros Hp Hzero _ _.
  apply (handlers_when_geometry_raises _ _ _ _ _ _ _ _ p).
  - exact Hp.
  - apply calculate_geometry_undefined.
    apply zero_division_input_undefined. exact Hzero.
Qed.

Lemma X23_division_by_zero_escapes_witness :
  generate_obj (fun _ => Ok 5%R) (fun _ => EmptyString) (fun _ => EmptyString)
    "wall.obj" (fun _ => true)
    (set_text default_inputs "Cabinets Wide" "1")
  = ([], inl (Exn ZeroDivisionError))
  /\ update_preview (fun _ => Ok 5%R) (fun _ => EmptyString)
       (fun _ => EmptyString) (fun _ => ret tt)
       (set_text default_inputs "Cabinets Wide" "1")
     = ([], inl (Exn ZeroDivisionError)).
Proof.
  apply (X23_division_by_zero_escapes (fun _ => Ok 5%R)
           (fun _ => EmptyString) (fun _ => EmptyString)
           (fun _ => EmptyString) "wall.obj" (fun _ => true)
           (fun _ => ret tt)
           (set_text default_inputs "Cabinets Wide" "1")
           (mk_params 1 8 5 500 500 64 64)).
  - reflexivity.
  - left. split; [reflexivity | simpl; lra].
  - apply modest_small. simpl. lia.
  - apply modest_small. simpl. lia.
Defined.





